(** * location_tracker.py: the data preparation pipeline

    A shallow embedding of [src/location_tracker.py]: the row sanitizer of
    [load_data], the latest-position selector, the history filter, the fade
    ranker and the fetches of one run of the script.

    The rows of a pandas [DataFrame] are a list in frame order.  Only the
    columns the script reads or writes are kept: Tag, X, Y, Timestamp and
    Floor; what [read_csv] and [load_data] return carries the names of
    its columns beside the rows, since the script fails on a sheet that
    lacks one.  A tag is kept by its text, NaN apart, and is only ever
    tested for equality.  The pandas, numpy and Python routines the script calls are
    not part of the repository; their element parsers and their sorts are
    parameters of the development, constrained by what the libraries
    document. *)

From Stdlib Require Import List String Ascii ZArith QArith Bool Arith Lia.
From Stdlib Require Import Permutation Sorted.
Import ListNotations.
Local Close Scope Q_scope.

Set Implicit Arguments.

Module LocationTracker.

(** ** Cells

    A cell of a column whose parsed values have type [A]: missing
    (NaN / NaT), text as [read_csv] delivered it, or a parsed value. *)
Inductive cell (A : Type) : Type :=
| NA
| Raw (s : string)
| Val (a : A).

Arguments NA {A}.
Arguments Raw {A} s.
Arguments Val {A} a.

Definition notna {A : Type} (c : cell A) : bool :=
  match c with
  | NA => false
  | _ => true
  end.

(** Python exceptions the pipeline can raise. [RemoteError] stands for
    whatever [pd.read_csv] raises on an unreachable or malformed source;
    a KeyError holds its key as Python prints it, the quotes of a text
    key apart. *)
Inductive exception : Type :=
| RemoteError (msg : string)
| KeyError (key : string)
| IndexError (msg : string)
| ValueError (msg : string)
| TypeError.

(** ** Timestamps

    A parsed timestamp: the instant in nanoseconds since the epoch, and
    the UTC offset in minutes it was written with; [None] is a tz-naive
    timestamp.  pandas orders timestamps by instant and refuses to compare
    a tz-naive with a tz-aware one. *)
Record datetime : Type := mkDatetime {
  instant : Z;
  utcoffset : option Z
}.

Definition naive (t : Z) : datetime := mkDatetime t None.

Definition offset_eqb (a b : option Z) : bool :=
  match a, b with
  | Some x, Some y => (x =? y)%Z
  | None, None => true
  | _, _ => false
  end.

(** The offsets of the parsed values of a column. *)
Definition offsets (series : list (cell datetime)) : list (option Z) :=
  flat_map (fun c => match c with
                     | Val t => [utcoffset t]
                     | _ => []
                     end) series.

(** A datetime column has one dtype: all its values are tz-naive, or all
    carry the same offset. *)
Definition one_dtype (series : list (cell datetime)) : bool :=
  match offsets series with
  | [] => true
  | o :: os => forallb (offset_eqb o) os
  end.

(** What [pd.to_datetime] says of a column that has no single dtype. *)
Definition mixed_message (series : list (cell datetime)) : string :=
  if existsb (offset_eqb None) (offsets series)
  then "Cannot mix tz-aware with tz-naive values"
  else "Mixed timezones detected. Pass utc=True in to_datetime or tz='UTC' in DatetimeIndex to convert to a common timezone.".

Section Tracker.

(** Values of dtype float64 other than NaN. *)
Variable float : Type.

Record row : Type := mkRow {
  Tag : option string;          (* the tag by its text; None is NaN *)
  X : cell float;
  Y : cell float;
  Timestamp : cell datetime;
  Floor : option string         (* None when the feed has no such column *)
}.

Definition set_Tag (r : row) (t : option string) : row :=
  mkRow t (X r) (Y r) (Timestamp r) (Floor r).
Definition set_X (r : row) (c : cell float) : row :=
  mkRow (Tag r) c (Y r) (Timestamp r) (Floor r).
Definition set_Y (r : row) (c : cell float) : row :=
  mkRow (Tag r) (X r) c (Timestamp r) (Floor r).
Definition set_Timestamp (r : row) (c : cell datetime) : row :=
  mkRow (Tag r) (X r) (Y r) c (Floor r).
Definition set_Floor (r : row) (f : option string) : row :=
  mkRow (Tag r) (X r) (Y r) (Timestamp r) f.

Definition DataFrame := list row.

(** [df[name] = series]: the series has the frame's index, so the cells are
    written row by row. *)
Fixpoint assign (B : Type) (set : row -> B -> row) (df : DataFrame)
    (series : list B) : DataFrame :=
  match df, series with
  | r :: df', c :: series' => set r c :: assign set df' series'
  | _, _ => []
  end.

(** [df.dropna(subset=[...])]: a row is dropped when any listed column is
    missing in it. *)
Definition dropna (subset : list (row -> bool)) (df : DataFrame) : DataFrame :=
  filter (fun r => forallb (fun notnull => notnull r) subset) df.

Definition Timestamp_notna (r : row) : bool := notna (Timestamp r).
Definition X_notna (r : row) : bool := notna (X r).
Definition Y_notna (r : row) : bool := notna (Y r).

(** ** Row sanitizer: lines 18-24 of [load_data] *)

(** The element parser of [pd.to_numeric]. *)
Variable parse_numeric : string -> option float.

(** The element parser of [pd.to_datetime].  pandas picks the format from
    the column it is given (the first parsable element), so the parser of
    an element depends on the whole column. *)
Variable parse_datetime : list (cell datetime) -> string -> option datetime.

Definition coerce (A : Type) (parse : string -> option A) (c : cell A) : cell A :=
  match c with
  | NA => NA
  | Raw s => match parse s with
             | Some v => Val v
             | None => NA
             end
  | Val v => Val v
  end.

(** [pd.to_numeric(series, errors="coerce")] *)
Definition to_numeric (series : list (cell float)) : list (cell float) :=
  map (coerce parse_numeric) series.

(** [pd.to_datetime(series, errors="coerce")]: an element that does not
    parse becomes NaT, but a column whose parsed values have no single
    dtype raises all the same. *)
Definition to_datetime (series : list (cell datetime))
    : exception + list (cell datetime) :=
  let parsed := map (coerce (parse_datetime series)) series in
  if one_dtype parsed then inr parsed
  else inl (ValueError (mixed_message parsed)).

Definition sanitize (sheet_name : string) (df : DataFrame)
    : exception + DataFrame :=
  let df := dropna [Timestamp_notna] df in
  let df := assign set_X df (to_numeric (map X df)) in
  let df := assign set_Y df (to_numeric (map Y df)) in
  match to_datetime (map Timestamp df) with
  | inl e => inl e
  | inr series =>
      let df := assign set_Timestamp df series in
      let df := dropna [X_notna; Y_notna; Timestamp_notna] df in
      inr (map (fun r => set_Floor r (Some sheet_name)) df)
  end.

(** *** The sanitizer in the words of the specification *)

(** A cell is valid when it is present and parses. *)
Definition parses (A : Type) (parse : string -> option A) (c : cell A) : bool :=
  match c with
  | NA => false
  | Raw s => match parse s with
             | Some _ => true
             | None => false
             end
  | Val _ => true
  end.

(** The Timestamp column [to_datetime] sees: the rows that survive the
    first [dropna]. *)
Definition Timestamp_series (df : DataFrame) : list (cell datetime) :=
  map Timestamp (dropna [Timestamp_notna] df).

(** That column with every element parsed. *)
Definition parsed_Timestamps (df : DataFrame) : list (cell datetime) :=
  map (coerce (parse_datetime (Timestamp_series df))) (Timestamp_series df).

(** X and Y parse, and the Timestamp parses as an element of the column
    of the frame. *)
Definition fully_valid (df : DataFrame) (r : row) : bool :=
  parses parse_numeric (X r) && parses parse_numeric (Y r)
  && parses (parse_datetime (Timestamp_series df)) (Timestamp r).

(** X and Y parse, and the Timestamp parses when it is taken alone, as a
    column of one element. *)
Definition valid_alone (r : row) : bool :=
  parses parse_numeric (X r) && parses parse_numeric (Y r)
  && parses (parse_datetime [Timestamp r]) (Timestamp r).

(** The retained row: the three cells hold their parsed values, the floor
    is the one passed in, the tag is untouched. *)
Definition stamped (sheet_name : string) (df : DataFrame) (r : row) : row :=
  mkRow (Tag r)
        (coerce parse_numeric (X r))
        (coerce parse_numeric (Y r))
        (coerce (parse_datetime (Timestamp_series df)) (Timestamp r))
        (Some sheet_name).

(** A row as the sanitizer leaves it. *)
Definition sanitized (sheet_name : string) (r : row) : Prop :=
  (exists x, X r = Val x) /\ (exists y, Y r = Val y)
  /\ (exists t, Timestamp r = Val t) /\ Floor r = Some sheet_name.

(** A step that may raise, followed by a pure one. *)
Definition and_then (A B : Type) (v : exception + A) (f : A -> B)
    : exception + B :=
  match v with
  | inl e => inl e
  | inr a => inr (f a)
  end.

(** ** Ordering by Timestamp *)

(** The key [sort_values("Timestamp")] orders by: the instant.  A
    Timestamp that is not a datetime sorts last (na_position="last");
    sanitized frames hold none. *)
Definition sort_key (r : row) : option Z :=
  match Timestamp r with
  | Val t => Some (instant t)
  | _ => None
  end.

Definition key_leb (a b : option Z) : bool :=
  match a, b with
  | Some x, Some y => (x <=? y)%Z
  | _, None => true
  | None, Some _ => false
  end.

Definition Timestamp_leb (r1 r2 : row) : bool :=
  key_leb (sort_key r1) (sort_key r2).

Definition Timestamp_le (r1 r2 : row) : Prop := Timestamp_leb r1 r2 = true.

(** Strictly earlier. *)
Definition Timestamp_lt (r1 r2 : row) : Prop := Timestamp_leb r2 r1 = false.

(** [df.sort_values("Timestamp")] with pandas' default [kind="quicksort"]:
    numpy's introsort, which is not part of the repository.  It stands for
    the sort of a column of one dtype, as every frame [load_data] returns
    has; the TypeError of a column that holds tz-naive and tz-aware
    Timestamps is raised by [latest], which alone sorts the rows of two
    sheets. *)
Variable sort_values : DataFrame -> DataFrame.

(** Insertion sort: [x] goes before the first [y] with [before x y]. *)
Fixpoint insert (A : Type) (before : A -> A -> bool) (x : A) (l : list A) : list A :=
  match l with
  | [] => [x]
  | y :: l' => if before x y then x :: l else y :: insert before x l'
  end.

Definition insertion_sort (A : Type) (before : A -> A -> bool) (l : list A) : list A :=
  fold_right (insert before) [] l.

(** The stable sort by Timestamp: ascending, rows of equal Timestamp in
    frame order. *)
Definition stable_sort (df : DataFrame) : DataFrame :=
  insertion_sort Timestamp_leb df.


(** ** Latest-position selector: line 38 *)

Definition tz_naive (r : row) : bool :=
  match Timestamp r with
  | Val t => offset_eqb (utcoffset t) None
  | _ => false
  end.

Definition tz_aware (r : row) : bool :=
  match Timestamp r with
  | Val t => negb (offset_eqb (utcoffset t) None)
  | _ => false
  end.

(** The frame holds a tz-naive and a tz-aware Timestamp: [pd.concat] of a
    tz-naive and a tz-aware column is a column of objects, and sorting it
    has to compare two that cannot be compared. *)
Definition mixes_naive_and_aware (df : DataFrame) : bool :=
  existsb tz_naive df && existsb tz_aware df.

(** [df.iloc[-1]] *)
Definition iloc_last (df : DataFrame) : exception + row :=
  match List.length df with
  | O => inl (IndexError "single positional indexer is out-of-bounds")
  | S n => match nth_error df n with
           | Some r => inr r
           | None => inl (IndexError "single positional indexer is out-of-bounds")
           end
  end.

Definition latest (df_all : DataFrame) : exception + row :=
  if mixes_naive_and_aware df_all then inl TypeError
  else iloc_last (sort_values df_all).

(** ** History filter: lines 101-113 *)

(** [df["Tag"] == tag], element by element: NaN equals nothing. *)
Definition tag_eq (a b : option string) : bool :=
  match a, b with
  | Some s, Some s' => String.eqb s s'
  | _, _ => false
  end.

(** Equality of tags as hash keys, where all NaN are one key. *)
Definition same_key (a b : option string) : bool :=
  match a, b with
  | Some s, Some s' => String.eqb s s'
  | None, None => true
  | _, _ => false
  end.

(** [series.unique()]: the distinct values in order of first appearance. *)
Fixpoint unique (tags : list (option string)) : list (option string) :=
  match tags with
  | [] => []
  | t :: tags' => t :: filter (fun u => negb (same_key t u)) (unique tags')
  end.

(** The options of the limit select box: a number or "All". *)
Inductive limit : Type :=
| Last (n : nat)
| AllPositions.

(** [df.tail(n)] *)
Definition tail (n : nat) (df : DataFrame) : DataFrame :=
  skipn (List.length df - n) df.

Definition apply_limit (limit_choice : limit) (df : DataFrame) : DataFrame :=
  match limit_choice with
  | Last n => tail n df
  | AllPositions => df
  end.

(** [df[df["Tag"] == tag].sort_values("Timestamp")] *)
Definition tag_frame (tag : option string) (df : DataFrame) : DataFrame :=
  sort_values (filter (fun r => tag_eq (Tag r) tag) df).

(** The frame the filter builds for one tag. *)
Definition limited (limit_choice : limit) (df : DataFrame)
    (tag : option string) : DataFrame :=
  apply_limit limit_choice (tag_frame tag df).

(** [pd.concat(frames, ignore_index=True)] *)
Definition pd_concat (frames : list DataFrame) : exception + DataFrame :=
  match frames with
  | [] => inl (ValueError "No objects to concatenate")
  | _ => inr (List.concat frames)
  end.

(** [tag_choice] is the selected option: the text "All", a tag, or NaN. *)
Definition history_filter (df : DataFrame) (tag_choice : option string)
    (limit_choice : limit) : exception + DataFrame :=
  if negb (tag_eq tag_choice (Some "All"%string)) then
    inr (limited limit_choice df tag_choice)
  else
    pd_concat (map (limited limit_choice df) (unique (map Tag df))).

(** ** Fade ranker: lines 116-118 *)

(** A row of the ranked frame: the record and the two attached columns.
    [alpha] is the exact quotient; the script holds it in binary64. *)
Record ranked : Type := mkRanked {
  rec : row;
  order : option nat;
  alpha : option Q
}.

(** Membership in the group of [groupby("Tag")] with key [tag]; rows with
    a NaN tag belong to no group. *)
Definition in_group (tag : string) (r : row) : bool :=
  tag_eq (Tag r) (Some tag).

(** [groupby("Tag").cumcount()]: for each row the number of rows of its
    group above it; NaN for a row outside every group. *)
Fixpoint cumcount_from (above df : DataFrame) : list (option nat) :=
  match df with
  | [] => []
  | r :: df' =>
      match Tag r with
      | Some s => Some (List.length (filter (in_group s) above))
      | None => None
      end :: cumcount_from (r :: above) df'
  end.

Definition cumcount (df : DataFrame) : list (option nat) :=
  cumcount_from [] df.

(** The non-missing [order] values of one group. *)
Definition group_orders (tag : string) (df : list (row * option nat)) : list nat :=
  flat_map (fun ro => if in_group tag (fst ro)
                      then match snd ro with
                           | Some k => [k]
                           | None => []
                           end
                      else []) df.

(** [rank(pct=True)] of [v] among [values]: the average rank,
    [less + (equal + 1) / 2], divided by the number of values. *)
Definition rank_pct (values : list nat) (v : nat) : Q :=
  let less := List.length (filter (fun u => u <? v) values) in
  let equal := List.length (filter (fun u => u =? v) values) in
  Qmake (Z.of_nat (2 * less + equal + 1)) (Pos.of_nat (2 * List.length values)).

(** The row with its [order] and, from the orders of its group in the
    whole frame, its [alpha]. *)
Definition attach (with_order : list (row * option nat)) (ro : row * option nat)
    : ranked :=
  mkRanked (fst ro) (snd ro)
    match Tag (fst ro), snd ro with
    | Some s, Some k => Some (rank_pct (group_orders s with_order) k)
    | _, _ => None
    end.

Definition fade (df_filtered : DataFrame) : list ranked :=
  let df := sort_values df_filtered in
  let with_order := combine df (cumcount df) in
  map (attach with_order) with_order.

(** [k] out of [n], as a fraction. *)
Definition share (k n : nat) : Q := Qmake (Z.of_nat k) (Pos.of_nat n).

(** The rows of the ranked frame that belong to one tag group. *)
Definition group (tag : string) (df : list ranked) : list ranked :=
  filter (fun q => in_group tag (rec q)) df.

(** ** One run of the script: lines 31-169 *)

Definition CSV_URLS : list (string * string) :=
  [ ("2nd"%string,
     "https://docs.google.com/spreadsheets/d/e/2PACX-1vTAu3Nv_Z7LvgPJ_YtIM14b5xrro004iNc_xjs6_Fgxn2NE_KTktnkyADzeGSgD99RYO6RKOZsYOpsN/pub?gid=1505254047&single=true&output=csv"%string);
    ("3rd"%string,
     "https://docs.google.com/spreadsheets/d/e/2PACX-1vTAu3Nv_Z7LvgPJ_YtIM14b5xrro004iNc_xjs6_Fgxn2NE_KTktnkyADzeGSgD99RYO6RKOZsYOpsN/pub?gid=2010753039&single=true&output=csv"%string) ].

Fixpoint lookup (key : string) (d : list (string * string)) : option string :=
  match d with
  | [] => None
  | (k, v) :: d' => if String.eqb key k then Some v else lookup key d'
  end.

(** What [pd.read_csv] and [load_data] return: the names of the columns
    and the rows.  A row holds a cell for each of the five columns; under
    a name the table lacks there is nothing to read. *)
Record table : Type := mkTable {
  columns : list string;
  rows : DataFrame
}.

Definition has_column (name : string) (t : table) : bool :=
  existsb (String.eqb name) (columns t).

(** [frame[name]]: KeyError when no column has the name. *)
Definition getitem (name : string) (t : table) : exception + unit :=
  if has_column name t then inr tt else inl (KeyError name).

(** The rows as the script reads them: the tag of a row of a table
    without Tag column is NaN, which is what [pd.concat] with a table
    that has the column fills in. *)
Definition records (t : table) : DataFrame :=
  if has_column "Tag" t then rows t
  else map (fun r => set_Tag r None) (rows t).

(** Lines 18-24 on what [read_csv] returned.  The [dropna] of line 18
    looks up Timestamp, lines 19 and 20 look up X and Y: on a table that
    lacks one of them the first of these lookups raises KeyError, before
    a row is touched.  Line 24 adds the column Floor when the sheet has
    none. *)
Definition ensure_proper_types (sheet_name : string) (t : table)
    : exception + table :=
  if negb (has_column "Timestamp" t) then inl (KeyError "['Timestamp']")
  else if negb (has_column "X" t) then inl (KeyError "X")
  else if negb (has_column "Y" t) then inl (KeyError "Y")
  else and_then (sanitize sheet_name (records t))
                (mkTable (if has_column "Floor" t then columns t
                          else columns t ++ ["Floor"%string])).

(** [pd.concat([df_2nd, df_3rd], ignore_index=True)]: the columns of
    both tables, the rows of the first and then those of the second. *)
Definition concat_floors (df_2nd df_3rd : table) : table :=
  mkTable (columns df_2nd
           ++ filter (fun name => negb (has_column name df_2nd)) (columns df_3rd))
          (rows df_2nd ++ rows df_3rd).

(** The remote source: what [pd.read_csv(url)] returns, given the URLs the
    run has fetched before. *)
Variable read_csv : list string -> string -> exception + table.

(** A step of the run: it returns or raises, and it extends the list of
    URLs fetched so far. *)
Definition run (A : Type) : Type := list string -> (exception + A) * list string.

Definition ret (A : Type) (a : A) : run A := fun fetched => (inr a, fetched).

Definition bind (A B : Type) (c : run A) (k : A -> run B) : run B :=
  fun fetched =>
    match c fetched with
    | (inl e, fetched') => (inl e, fetched')
    | (inr a, fetched') => k a fetched'
    end.

Definition lift (A : Type) (v : exception + A) : run A := fun fetched => (v, fetched).

Local Notation "x <- c ;; k" := (bind c (fun x => k))
  (at level 61, c at next level, right associativity).

Definition load_data (sheet_name : string) : run table :=
  fun fetched =>
    match lookup sheet_name CSV_URLS with
    | None => (inl (KeyError sheet_name), fetched)
    | Some url =>
        (match read_csv fetched url with
         | inl e => inl e
         | inr df => ensure_proper_types sheet_name df
         end, fetched ++ [url])
    end.

Definition isnan (t : option string) : bool :=
  match t with
  | None => true
  | Some _ => false
  end.

(** Python's [sorted] on the list of distinct tags, which raises when it
    compares two values that have no order. *)
Variable sorted : list (option string) -> exception + list (option string).

(** [["All"] + sorted(df["Tag"].unique().tolist())] *)
Definition tag_options (df : DataFrame) : exception + list (option string) :=
  and_then (sorted (unique (map Tag df))) (fun tags => Some "All"%string :: tags).

(** The tag is among those the selection covers: every tag under "All",
    otherwise the selected one. *)
Definition selected (tag_choice : option string) (tag : string) : bool :=
  tag_eq tag_choice (Some "All"%string) || tag_eq tag_choice (Some tag).

Definition has_tag (r : row) : bool := negb (isnan (Tag r)).

(** What the run hands to the charts: the latest record and the ranked
    history.  The calls that draw them, and the table of the same history
    in descending order, are outside the model. *)
Record view : Type := mkView {
  latest_record : row;
  history : list ranked
}.

Definition pipeline (floor_choice : string) (tag_choice : option string)
    (limit_choice : limit) : run view :=
  df_2nd <- load_data "2nd" ;;
  df_3rd <- load_data "3rd" ;;
  let df_all := concat_floors df_2nd df_3rd in
  latest_record <- lift (latest (rows df_all)) ;;
  _ <- lift (getitem "Tag" df_all) ;;
  df <- load_data floor_choice ;;
  _ <- lift (getitem "Tag" df) ;;
  _ <- lift (tag_options (rows df)) ;;
  df_filtered <- lift (history_filter (rows df) tag_choice limit_choice) ;;
  ret (mkView latest_record (fade df_filtered)).

(** What the page shows: the charts, or the message of [st.error]. *)
Inductive screen : Type :=
| Rendered (v : view)
| ErrorShown (e : exception).

(** The [try ... except Exception] around the run; the second component is
    the list of URLs the run fetched, in order. *)
Definition script (floor_choice : string) (tag_choice : option string)
    (limit_choice : limit) : screen * list string :=
  match pipeline floor_choice tag_choice limit_choice [] with
  | (inl e, fetched) => (ErrorShown e, fetched)
  | (inr v, fetched) => (Rendered v, fetched)
  end.

End Tracker.

(** ** Background images: lines 28, 48-49 and 132 *)

Definition floor_bg : list (string * string) :=
  [ ("2nd"%string, "2ndfloor.jpg"%string); ("3rd"%string, "3rdfloor.jpg"%string) ].

(** [floor_bg.get(floor, None)]; a missing floor is no key. *)
Definition bg_file (floor : option string) : option string :=
  match floor with
  | Some f => lookup f floor_bg
  | None => None
  end.

End LocationTracker.
Import LocationTracker.

(** ** A concrete feed

    Instances of the library routines, used to run the model on concrete
    rows: a decimal parser, a parser of timestamps that fixes the format
    of a column by its first element as pandas does, and the stable sort
    by Timestamp. *)
Module Sample.

Definition digit (c : ascii) : option Z :=
  let n := nat_of_ascii c in
  if (48 <=? n) && (n <=? 57) then Some (Z.of_nat (n - 48)) else None.

Fixpoint digits (acc : Z) (s : string) : option Z :=
  match s with
  | EmptyString => Some acc
  | String c s' => match digit c with
                   | Some d => digits (10 * acc + d) s'
                   | None => None
                   end
  end.

Definition number (s : string) : option Z :=
  match s with
  | EmptyString => None
  | _ => digits 0 s
  end.

(** Text such as "5" or "-12"; anything else does not parse. *)
Definition parse_numeric (s : string) : option Z :=
  match s with
  | String "-" s' => option_map Z.opp (number s')
  | _ => number s
  end.

Definition days_from_civil (y m d : Z) : Z :=
  let y' := if (m <=? 2)%Z then (y - 1)%Z else y in
  let era := (y' / 400)%Z in
  let yoe := (y' - era * 400)%Z in
  let mp := ((m + 9) mod 12)%Z in
  let doy := ((153 * mp + 2) / 5 + d - 1)%Z in
  let doe := (yoe * 365 + yoe / 4 - yoe / 100 + doy)%Z in
  (era * 146097 + doe - 719468)%Z.

Definition in_range (lo hi v : Z) : bool := ((lo <=? v) && (v <=? hi))%Z.

(** Nanoseconds since the epoch of a civil minute, when it is one. *)
Definition civil (y m d h mi : option Z) : option Z :=
  match y, m, d, h, mi with
  | Some y, Some m, Some d, Some h, Some mi =>
      if in_range 1 12 m && in_range 1 31 d && in_range 0 23 h
         && in_range 0 59 mi
      then Some ((((days_from_civil y m d * 24 + h) * 60 + mi) * 60
                  * 1000000000)%Z)
      else None
  | _, _, _, _, _ => None
  end.

(** "2024-01-01 10:00" *)
Definition parse_minute (s : string) : option Z :=
  if (String.length s =? 16)%nat
     && String.eqb (substring 4 1 s) "-" && String.eqb (substring 7 1 s) "-"
     && String.eqb (substring 10 1 s) " " && String.eqb (substring 13 1 s) ":"
  then civil (number (substring 0 4 s)) (number (substring 5 2 s))
             (number (substring 8 2 s)) (number (substring 11 2 s))
             (number (substring 14 2 s))
  else None.

(** "01/02/2024 11:00", month first *)
Definition parse_month_first (s : string) : option Z :=
  if (String.length s =? 16)%nat
     && String.eqb (substring 2 1 s) "/" && String.eqb (substring 5 1 s) "/"
     && String.eqb (substring 10 1 s) " " && String.eqb (substring 13 1 s) ":"
  then civil (number (substring 6 4 s)) (number (substring 0 2 s))
             (number (substring 3 2 s)) (number (substring 11 2 s))
             (number (substring 14 2 s))
  else None.

(** "+01:00" or "-05:30" as minutes *)
Definition parse_offset (s : string) : option Z :=
  match number (substring 1 2 s), number (substring 4 2 s) with
  | Some h, Some mi =>
      if (String.length s =? 6)%nat && String.eqb (substring 3 1 s) ":"
         && in_range 0 23 h && in_range 0 59 mi
      then if String.eqb (substring 0 1 s) "+" then Some (h * 60 + mi)%Z
           else if String.eqb (substring 0 1 s) "-" then Some (- (h * 60 + mi))%Z
           else None
      else None
  | _, _ => None
  end.

(** The formats of the feed: %Y-%m-%d %H:%M, the same with %z, and
    %m/%d/%Y %H:%M. *)
Inductive format : Type :=
| Minute
| MinuteOffset
| MonthFirst.

Definition parse_as (f : format) (s : string) : option datetime :=
  match f with
  | Minute => option_map naive (parse_minute s)
  | MonthFirst => option_map naive (parse_month_first s)
  | MinuteOffset =>
      match parse_minute (substring 0 16 s), parse_offset (substring 16 6 s) with
      | Some t, Some o =>
          if (String.length s =? 22)%nat
          then Some (mkDatetime (t - o * 60 * 1000000000)%Z (Some o))
          else None
      | _, _ => None
      end
  end.

(** The format a text is written in, if it is one of the three. *)
Definition guess_format (s : string) : option format :=
  match parse_as Minute s, parse_as MinuteOffset s, parse_as MonthFirst s with
  | Some _, _, _ => Some Minute
  | _, Some _, _ => Some MinuteOffset
  | _, _, Some _ => Some MonthFirst
  | _, _, _ => None
  end.

Fixpoint first_text (series : list (cell datetime)) : option string :=
  match series with
  | [] => None
  | Raw s :: _ => Some s
  | _ :: series' => first_text series'
  end.

(** Every element is parsed with the format of the first element of the
    column; when that one has none of the formats, each element is parsed
    with its own. *)
Definition parse_datetime (series : list (cell datetime)) (s : string)
    : option datetime :=
  match first_text series with
  | Some s0 =>
      match guess_format s0 with
      | Some f => parse_as f s
      | None => match guess_format s with
                | Some f => parse_as f s
                | None => None
                end
      end
  | None => None
  end.

(** Ascending by Timestamp, rows of equal Timestamp in frame order. *)
Definition stable_sort (df : DataFrame Z) : DataFrame Z :=
  LocationTracker.stable_sort df.

(** Tags in ascending order of text; a NaN beside a text has no order. *)
Definition text_leb (a b : option string) : bool :=
  match a, b with
  | Some s, Some s' => String.leb s s'
  | _, _ => true
  end.

Definition sorted (tags : list (option string))
    : exception + list (option string) :=
  if existsb isnan tags && (1 <? List.length tags) then inl TypeError
  else inr (insertion_sort text_leb tags).

Definition sanitize := sanitize parse_numeric parse_datetime.

Definition script :=
  script parse_numeric parse_datetime stable_sort.

(** The two rows of the scenario in the specification. *)
Definition scenario : DataFrame Z :=
  [ mkRow (Some "T1"%string) (Raw "5") (Raw "10") (Raw "2024-01-01 10:00") None;
    mkRow (Some "T1"%string) (Raw "bad") (Raw "12") (Raw "2024-01-01 11:00") None ].

(** Two rows with valid cells, the second written month first. *)
Definition two_formats : DataFrame Z :=
  [ mkRow (Some "T1"%string) (Raw "5") (Raw "10") (Raw "2024-01-01 10:00") None;
    mkRow (Some "T1"%string) (Raw "6") (Raw "12") (Raw "01/02/2024 11:00") None ].

(** Two rows with valid cells, written with two UTC offsets. *)
Definition two_offsets : DataFrame Z :=
  [ mkRow (Some "T1"%string) (Raw "5") (Raw "10")
          (Raw "2024-01-01 10:00+01:00") None;
    mkRow (Some "T1"%string) (Raw "6") (Raw "12")
          (Raw "2024-01-01 11:00+02:00") None ].

(** A row of the feed whose Tag field is empty. *)
Definition untagged : row Z :=
  mkRow None (Raw "5") (Raw "10") (Raw "2024-01-01 10:00") None.

(** A sanitized record of the 2nd floor, tz-naive. *)
Definition record (tag : string) (t : Z) : row Z :=
  mkRow (Some tag) (Val 1%Z) (Val 2%Z) (Val (naive t)) (Some "2nd"%string).

(** The two records of the selector example in the specification:
    2021-01-01 on the 2nd floor and 2021-01-02 on the 3rd. *)
Definition two_floors : DataFrame Z :=
  [ mkRow (Some "A"%string) (Val 1%Z) (Val 2%Z)
          (Val (naive 1609459200000000000)) (Some "2nd"%string);
    mkRow (Some "B"%string) (Val 3%Z) (Val 4%Z)
          (Val (naive 1609545600000000000)) (Some "3rd"%string) ].



Definition sheet_aware : DataFrame Z :=
  [ mkRow (Some "B"%string) (Raw "3") (Raw "4")
          (Raw "2021-01-02 00:00+00:00") None ].


(** Two records of one tag that share their Timestamp. *)
Definition tied_group : DataFrame Z :=
  [ mkRow (Some "A"%string) (Val 1%Z) (Val 2%Z) (Val (naive 5)) (Some "2nd"%string);
    mkRow (Some "A"%string) (Val 3%Z) (Val 4%Z) (Val (naive 5)) (Some "2nd"%string) ].

(** Tag A seen after tag B, listed first. *)
Definition later_first : DataFrame Z := [ record "A" 2; record "B" 1 ].

(** Three sightings of A and one of B. *)
Definition sightings : DataFrame Z :=
  [ record "A" 5; record "B" 1; record "A" 3; record "A" 7 ].

(** The header line of the sheets. *)
Definition header : list string :=
  [ "Tag"%string; "X"%string; "Y"%string; "Timestamp"%string ].

(** A source that serves one valid row for each floor, whatever was
    fetched before. *)
Definition one_row_each (fetched : list string) (url : string)
    : exception + table Z :=
  inr (mkTable header
         [ mkRow (Some "T1"%string) (Raw "5") (Raw "10")
                 (Raw "2024-01-01 10:00") None ]).

(** The run over [one_row_each] with the 2nd floor, every tag and every
    position selected. *)
Definition run_one_row_each : screen Z * list string :=
  script one_row_each sorted "2nd" (Some "All"%string) AllPositions.

(** A source that cannot be reached. *)
Definition unreachable (fetched : list string) (url : string)
    : exception + table Z :=
  inl (RemoteError "HTTP Error 404: Not Found").

(** A source whose 2nd-floor sheet holds the header line only and whose
    3rd-floor sheet holds one valid row. *)
Definition second_floor_empty (fetched : list string) (url : string)
    : exception + table Z :=
  match lookup "2nd" CSV_URLS with
  | Some url2 =>
      if String.eqb url url2 then inr (mkTable header [])
      else inr (mkTable header
                  [ mkRow (Some "T1"%string) (Raw "5") (Raw "10")
                          (Raw "2024-01-01 10:00") None ])
  | None => inr (mkTable header [])
  end.

(** A source whose sheets hold the header line only. *)
Definition header_only (fetched : list string) (url : string)
    : exception + table Z :=
  inr (mkTable header []).

(** A source whose sheets have no Timestamp column. *)
Definition no_timestamps (fetched : list string) (url : string)
    : exception + table Z :=
  inr (mkTable [ "Tag"%string; "X"%string; "Y"%string ]
         [ mkRow (Some "T1"%string) (Raw "5") (Raw "10") NA None ]).

End Sample.

(** * Properties *)

(** ** Lists *)

Lemma filter_all (A : Type) (p : A -> bool) (l : list A) :
  Forall (fun a => p a = true) l -> filter p l = l.
Proof.
  induction 1 as [|a l Ha _ IH]; simpl; [reflexivity|].
  now rewrite Ha, IH.
Qed.

Lemma filter_none (A : Type) (p : A -> bool) (l : list A) :
  Forall (fun a => p a = false) l -> filter p l = [].
Proof.
  induction 1 as [|a l Ha _ IH]; simpl; [reflexivity|].
  now rewrite Ha, IH.
Qed.

Lemma filter_concat (A : Type) (p : A -> bool) (ls : list (list A)) :
  filter p (List.concat ls) = List.concat (map (filter p) ls).
Proof.
  induction ls as [|l ls IH]; simpl; [reflexivity|].
  now rewrite filter_app, IH.
Qed.

Lemma in_skipn (A : Type) (k : nat) (l : list A) (a : A) :
  In a (skipn k l) -> In a l.
Proof.
  intro H. rewrite <- (firstn_skipn k l). apply in_or_app. now right.
Qed.

Lemma sorted_app_cross (A : Type) (R : A -> A -> Prop) (l1 l2 : list A) :
  StronglySorted R (l1 ++ l2) ->
  forall a b, In a l1 -> In b l2 -> R a b.
Proof.
  induction l1 as [|x l1 IH]; simpl; intros H a b Ha Hb; [contradiction|].
  inversion H as [|? ? Hs Hall]; subst.
  destruct Ha as [<-|Ha].
  - rewrite Forall_forall in Hall. apply Hall, in_or_app. now right.
  - now apply IH.
Qed.

Lemma filter_disjoint_app (A : Type) (p q : A -> bool) (l : list A) :
  (forall a, In a l -> p a = true -> q a = false) ->
  Permutation (filter p l ++ filter q l) (filter (fun a => p a || q a) l).
Proof.
  induction l as [|a l IH]; simpl; intro H; [constructor|].
  assert (IH' := IH (fun b Hb => H b (or_intror Hb))).
  destruct (p a) eqn:Ep; simpl.
  - rewrite (H a (or_introl eq_refl) Ep). now constructor.
  - destruct (q a); simpl; [|assumption].
    symmetry. apply Permutation_cons_app. now symmetry.
Qed.

(** ** Row sanitizer *)
Section SanitizerFacts.

Variable float : Type.
Variable parse_numeric : string -> option float.
Variable parse_datetime : list (cell datetime) -> string -> option datetime.

Local Abbreviation sanitize := (sanitize parse_numeric parse_datetime).
Local Abbreviation fully_valid := (fully_valid parse_numeric parse_datetime).
Local Abbreviation stamped := (stamped parse_numeric parse_datetime).
Local Abbreviation parsed_Timestamps := (parsed_Timestamps parse_datetime).

Lemma assign_map (B : Type) (set : row float -> B -> row float)
    (g : row float -> B) (df : DataFrame float) :
  assign set df (map g df) = map (fun r => set r (g r)) df.
Proof.
  induction df as [|r df IH]; simpl; [reflexivity|].
  now rewrite IH.
Qed.

Lemma filter_map_swap (A B : Type) (f : A -> B) (p : B -> bool) (l : list A) :
  filter p (map f l) = map f (filter (fun a => p (f a)) l).
Proof.
  induction l as [|a l IH]; simpl; [reflexivity|].
  destruct (p (f a)); simpl; now rewrite IH.
Qed.

Lemma filter_filter (A : Type) (p q : A -> bool) (l : list A) :
  filter q (filter p l) = filter (fun a => p a && q a) l.
Proof.
  induction l as [|a l IH]; simpl; [reflexivity|].
  destruct (p a); simpl; [destruct (q a)|]; now rewrite IH.
Qed.

Lemma notna_coerce (A : Type) (parse : string -> option A) (c : cell A) :
  notna (coerce parse c) = parses parse c.
Proof.
  destruct c as [|s|a]; simpl; try reflexivity.
  now destruct (parse s).
Qed.

Lemma parses_notna (A : Type) (parse : string -> option A) (c : cell A) :
  parses parse c = true -> notna c = true.
Proof. now destruct c. Qed.

Lemma parses_Val (A : Type) (parse : string -> option A) (c : cell A) :
  parses parse c = true -> exists v, coerce parse c = Val v.
Proof.
  destruct c as [|s|a]; simpl; try discriminate.
  - destruct (parse s) as [v|]; [now exists v | discriminate].
  - now exists a.
Qed.

Lemma offset_eqb_eq (a b : option Z) : offset_eqb a b = true <-> a = b.
Proof.
  destruct a as [x|], b as [y|]; simpl; split; try congruence.
  - intro H. apply Z.eqb_eq in H. now subst.
  - intros [= ->]. apply Z.eqb_refl.
Qed.

Lemma in_offsets (series : list (cell datetime)) (o : option Z) :
  In o (offsets series) <-> exists t, In (Val t) series /\ utcoffset t = o.
Proof.
  unfold offsets. rewrite in_flat_map. split.
  - intros [c [Hc Ho]]. destruct c as [|s|t]; try contradiction.
    destruct Ho as [<-|[]]. now exists t.
  - intros [t [Ht <-]]. exists (Val t). split; [assumption | now left].
Qed.

(** One dtype: any two parsed values of the column have the same offset. *)
Lemma one_dtype_uniform (series : list (cell datetime)) :
  one_dtype series = true
  <-> forall a b, In a (offsets series) -> In b (offsets series) -> a = b.
Proof.
  unfold one_dtype. destruct (offsets series) as [|o os]; [simpl; tauto|].
  rewrite forallb_forall. split.
  - intros H a b Ha Hb.
    assert (Ho : forall c, In c (o :: os) -> o = c).
    { intros c [<-|Hc]; [reflexivity|]. now apply offset_eqb_eq, H. }
    rewrite <- (Ho a Ha), <- (Ho b Hb). reflexivity.
  - intros H c Hc. apply offset_eqb_eq, H; [now left | now right].
Qed.

Lemma one_dtype_incl (series series' : list (cell datetime)) :
  (forall c, In c series' -> In c series) ->
  one_dtype series = true -> one_dtype series' = true.
Proof.
  intros Hincl H. rewrite one_dtype_uniform in *.
  intros a b Ha Hb. apply in_offsets in Ha as [t [Ht Ea]].
  apply in_offsets in Hb as [u [Hu Eb]].
  apply H; apply in_offsets; eauto.
Qed.

(** The steps of [load_data] collapse into one test of the parsed
    Timestamp column and one pass over the frame. *)
Lemma sanitize_one_pass (sheet_name : string) (df : DataFrame float) :
  sanitize sheet_name df
  = if one_dtype (parsed_Timestamps df)
    then inr (map (stamped sheet_name df) (filter (fully_valid df) df))
    else inl (ValueError (mixed_message (parsed_Timestamps df))).
Proof.
  unfold LocationTracker.sanitize, to_numeric, to_datetime.
  set (d1 := dropna [@Timestamp_notna float] df).
  rewrite (map_map (@X float)), (assign_map (@set_X float)).
  set (d2 := map _ d1).
  rewrite (map_map (@Y float)), (assign_map (@set_Y float)).
  set (d3 := map _ d2).
  assert (Hseries : map (@Timestamp float) d3 = Timestamp_series df).
  { subst d3 d2. rewrite !map_map. reflexivity. }
  assert (Hp : map (coerce (parse_datetime (map (@Timestamp float) d3)))
                   (map (@Timestamp float) d3)
               = map (coerce (parse_datetime (Timestamp_series df)))
                     (map (@Timestamp float) d3)) by now rewrite Hseries.
  cbv zeta. rewrite Hp.
  set (P := map (coerce (parse_datetime (Timestamp_series df)))
                (map (@Timestamp float) d3)).
  assert (EP : parsed_Timestamps df = P)
    by (subst P; unfold LocationTracker.parsed_Timestamps; now rewrite Hseries).
  rewrite EP. destruct (one_dtype P); [|reflexivity]. subst P.
  rewrite (map_map (@Timestamp float)), (assign_map (@set_Timestamp float)).
  subst d3 d2. rewrite !map_map. unfold dropna at 1.
  rewrite filter_map_swap, map_map.
  subst d1. unfold dropna. rewrite filter_filter.
  unfold LocationTracker.fully_valid, LocationTracker.stamped.
  do 2 f_equal.
  apply filter_ext. intro r.
  unfold X_notna, Y_notna, Timestamp_notna; simpl.
  rewrite !notna_coerce, !andb_true_r.
  destruct (parses (parse_datetime _) (Timestamp r)) eqn:Ht.
  - rewrite (parses_notna _ _ Ht). simpl.
    now destruct (parses parse_numeric (X r)), (parses parse_numeric (Y r)).
  - now rewrite !andb_false_r.
Qed.

Lemma sanitize_inr (sheet_name : string) (df out : DataFrame float) :
  sanitize sheet_name df = inr out ->
  one_dtype (parsed_Timestamps df) = true
  /\ out = map (stamped sheet_name df) (filter (fully_valid df) df).
Proof.
  rewrite sanitize_one_pass.
  destruct (one_dtype (parsed_Timestamps df)); [|discriminate].
  now intros [= <-].
Qed.

Lemma stamped_sanitized (sheet_name : string) (df : DataFrame float) (r : row float) :
  fully_valid df r = true -> sanitized sheet_name (stamped sheet_name df r).
Proof.
  unfold LocationTracker.fully_valid. intro H.
  apply andb_prop in H as [H Ht]. apply andb_prop in H as [Hx Hy].
  unfold sanitized, LocationTracker.stamped; simpl.
  repeat split; eauto using parses_Val.
Qed.

Lemma sanitize_sanitized (sheet_name : string) (df out : DataFrame float) :
  sanitize sheet_name df = inr out -> Forall (sanitized sheet_name) out.
Proof.
  intro H. apply sanitize_inr in H as [_ ->].
  rewrite Forall_map, Forall_forall.
  intros r Hr. apply filter_In in Hr as [_ Hr].
  now apply stamped_sanitized.
Qed.

(** A sanitized row is fully valid and already carries its parsed cells,
    whatever column the datetime parser is given. *)
Lemma stamped_fixpoint (sheet_name : string) (df0 df : DataFrame float) :
  Forall (sanitized sheet_name) df ->
  map (stamped sheet_name df0) (filter (fully_valid df0) df) = df.
Proof.
  unfold LocationTracker.fully_valid, LocationTracker.stamped.
  induction 1 as [|r l Hr Hl IH]; simpl; [reflexivity|].
  destruct Hr as [[x Hx] [[y Hy] [[t Ht] Hf]]].
  rewrite Hx, Hy, Ht. simpl. rewrite IH. f_equal.
  rewrite Hx, Hy, Ht. simpl.
  destruct r; simpl in *; congruence.
Qed.

Lemma parsed_Timestamps_sanitized (sheet_name : string) (df : DataFrame float) :
  Forall (sanitized sheet_name) df ->
  parsed_Timestamps df = map (@Timestamp float) df.
Proof.
  intro H. unfold LocationTracker.parsed_Timestamps, Timestamp_series, dropna.
  rewrite filter_all.
  - rewrite map_map. apply map_ext_in. intros r Hr.
    rewrite Forall_forall in H. destruct (H r Hr) as [_ [_ [[t Ht] _]]].
    now rewrite Ht.
  - revert H. apply Forall_impl. intros r [_ [_ [[t Ht] _]]].
    simpl. unfold Timestamp_notna. now rewrite Ht.
Qed.

(** On a frame of sanitized rows of one dtype every step is the
    identity. *)
Lemma sanitize_fixpoint (sheet_name : string) (df : DataFrame float) :
  Forall (sanitized sheet_name) df ->
  one_dtype (map (@Timestamp float) df) = true ->
  sanitize sheet_name df = inr df.
Proof.
  intros H Hd. rewrite sanitize_one_pass.
  erewrite parsed_Timestamps_sanitized by eassumption. rewrite Hd.
  now rewrite stamped_fixpoint.
Qed.

Lemma fully_valid_Timestamp_notna (df : DataFrame float) (r : row float) :
  fully_valid df r = true -> Timestamp_notna r = true.
Proof.
  unfold LocationTracker.fully_valid, Timestamp_notna. intro H.
  apply andb_prop in H as [_ H]. now apply parses_notna in H.
Qed.

(** The Timestamp column of a returned frame has one dtype. *)
Lemma sanitize_one_dtype (sheet_name : string) (df out : DataFrame float) :
  sanitize sheet_name df = inr out ->
  one_dtype (map (@Timestamp float) out) = true.
Proof.
  intro H. apply sanitize_inr in H as [Hd ->].
  eapply one_dtype_incl; [|exact Hd]. intros c Hc.
  rewrite map_map in Hc. apply in_map_iff in Hc as [r [<- Hr]].
  apply filter_In in Hr as [Hin Hv].
  unfold LocationTracker.parsed_Timestamps, Timestamp_series.
  rewrite map_map. apply in_map_iff. exists r. split; [reflexivity|].
  unfold dropna. apply filter_In. split; [assumption|]. simpl.
  assert (Hn : Timestamp_notna r = true)
    by (eapply fully_valid_Timestamp_notna; eassumption).
  now rewrite Hn.
Qed.

(** C1, as the code has it. When the parsed Timestamps of the column have
    one dtype the sanitizer returns, and whenever it returns it has
    dropped exactly the rows whose X, Y or Timestamp is missing or does not
    parse, the Timestamp being parsed as an element of the column of the
    frame, and has kept every other row with its tag untouched, its three
    cells holding their parsed values and its floor set to the floor
    passed in; the kept rows are in the order of the input, and every row
    of the output is fully valid. *)
Theorem sanitize_stable_filter (sheet_name : string) (df : DataFrame float) :
  (one_dtype (parsed_Timestamps df) = true ->
   sanitize sheet_name df
   = inr (map (stamped sheet_name df) (filter (fully_valid df) df)))
  /\ forall out, sanitize sheet_name df = inr out ->
       out = map (stamped sheet_name df) (filter (fully_valid df) df)
       /\ (forall r', In r' out <->
             exists r, In r df /\ fully_valid df r = true
                       /\ r' = stamped sheet_name df r)
       /\ Forall (sanitized sheet_name) out.
Proof.
  split.
  - intro H. now rewrite sanitize_one_pass, H.
  - intros out H. assert (Hs := H). apply sanitize_sanitized in Hs.
    apply sanitize_inr in H as [_ ->].
    split; [reflexivity|]. split; [|assumption].
    intro r'. rewrite in_map_iff. split.
    + intros [r [E Hr]]. apply filter_In in Hr as [Hin Hv]. now exists r.
    + intros [r [Hin [Hv E]]]. exists r. split; [now symmetry|].
      apply filter_In. now split.
Qed.

(** C8. Sanitizing a frame the sanitizer returned again, for the same
    floor, returns the same frame, row for row and in the same order. *)
Theorem sanitize_idempotent (sheet_name : string) (df out : DataFrame float) :
  sanitize sheet_name df = inr out ->
  sanitize sheet_name out = inr out.
Proof.
  intro H. apply sanitize_fixpoint.
  - eapply sanitize_sanitized; eassumption.
  - eapply sanitize_one_dtype; eassumption.
Qed.

(** C9, as the code has it. The sanitizer neither checks nor changes the
    Tag column: the tags of the output are the tags of the fully valid
    input rows, in order, so an output record has a tag exactly when its
    raw row had one. *)
Theorem sanitize_passes_tags (sheet_name : string) (df out : DataFrame float) :
  sanitize sheet_name df = inr out ->
  map (@Tag float) out = map (@Tag float) (filter (fully_valid df) df).
Proof.
  intro H. apply sanitize_inr in H as [_ ->].
  rewrite map_map. reflexivity.
Qed.

(** *** Further properties of the sanitizer *)

Lemma filter_length_all (A : Type) (p : A -> bool) (l : list A) :
  List.length (filter p l) = List.length l <-> forall a, In a l -> p a = true.
Proof.
  induction l as [|a l IH]; simpl; [tauto|].
  pose proof (filter_length_le p l) as Hle.
  destruct (p a) eqn:E; simpl; split.
  - intros H b [<-|Hb]; [assumption|]. apply IH; [lia | assumption].
  - intro H. f_equal. apply IH. auto.
  - intro H. lia.
  - intro H. specialize (H a (or_introl eq_refl)). congruence.
Qed.

Lemma Timestamp_series_set_Floor (g : row float -> option string)
    (df : DataFrame float) :
  Timestamp_series (map (fun r => set_Floor r (g r)) df) = Timestamp_series df.
Proof.
  unfold Timestamp_series, dropna.
  rewrite filter_map_swap, map_map. reflexivity.
Qed.

(** The Floor column of the feed is never read: whatever the raw rows
    hold there, the sanitizer does the same, raising or returning the
    same frame. *)
Theorem sanitize_ignores_source_floor (sheet_name : string)
    (g : row float -> option string) (df : DataFrame float) :
  sanitize sheet_name (map (fun r => set_Floor r (g r)) df)
  = sanitize sheet_name df.
Proof.
  rewrite !sanitize_one_pass.
  unfold LocationTracker.parsed_Timestamps, LocationTracker.fully_valid,
    LocationTracker.stamped.
  rewrite Timestamp_series_set_Floor, filter_map_swap, map_map.
  reflexivity.
Qed.

(** The same raw rows loaded for another sheet raise the same error, or
    give the same records with the other floor stamped. *)
Theorem sanitize_other_floor (sheet_name sheet_name' : string)
    (df : DataFrame float) :
  sanitize sheet_name' df
  = and_then (sanitize sheet_name df)
             (map (fun r => set_Floor r (Some sheet_name'))).
Proof.
  rewrite !sanitize_one_pass.
  destruct (one_dtype (parsed_Timestamps df)); simpl; [|reflexivity].
  rewrite map_map. reflexivity.
Qed.

(** A frame the sanitizer returns holds Timestamps of one dtype, tz-naive
    or of one UTC offset: sorting it, or a part of it, by Timestamp never
    has to compare a tz-naive with a tz-aware one.  The frames the
    history filter and the fade ranker sort are of this kind; the
    selector sorts the rows of two sheets. *)
Theorem sanitize_never_mixes (sheet_name : string) (df out : DataFrame float) :
  sanitize sheet_name df = inr out ->
  one_dtype (map (@Timestamp float) out) = true
  /\ forall part, incl part out -> mixes_naive_and_aware part = false.
Proof.
  intro H. apply sanitize_one_dtype in H. split; [assumption|].
  intros part Hincl. unfold mixes_naive_and_aware.
  destruct (existsb (@tz_naive float) part) eqn:En; [|reflexivity].
  destruct (existsb (@tz_aware float) part) eqn:Ea; [|reflexivity].
  exfalso. apply existsb_exists in En as [r [Hr Hn]].
  apply existsb_exists in Ea as [r' [Hr' Ha]].
  unfold tz_naive in Hn. unfold tz_aware in Ha.
  destruct (Timestamp r) as [|s|t] eqn:Et; try discriminate.
  destruct (Timestamp r') as [|s'|t'] eqn:Et'; try discriminate.
  rewrite one_dtype_uniform in H.
  assert (E : utcoffset t = utcoffset t').
  { apply H; apply in_offsets.
    - exists t. split; [|reflexivity]. rewrite <- Et.
      apply in_map. now apply Hincl.
    - exists t'. split; [|reflexivity]. rewrite <- Et'.
      apply in_map. now apply Hincl. }
  rewrite <- E, Hn in Ha. discriminate.
Qed.

Lemma sanitize_shorter (sheet_name : string) (df out : DataFrame float) :
  sanitize sheet_name df = inr out -> List.length out <= List.length df.
Proof.
  intro H. apply sanitize_inr in H as [_ ->].
  rewrite length_map. apply filter_length_le.
Qed.

(** The sanitizer never adds a row, and what it returns is as long as
    what it was given exactly when every row is fully valid, the
    Timestamp being parsed as an element of the column of the frame. *)
Theorem sanitize_length (sheet_name : string) (df out : DataFrame float) :
  sanitize sheet_name df = inr out ->
  List.length out <= List.length df
  /\ (List.length out = List.length df
      <-> forall r, In r df -> fully_valid df r = true).
Proof.
  intro H. apply sanitize_inr in H as [_ ->].
  rewrite length_map. split.
  - apply filter_length_le.
  - apply filter_length_all.
Qed.

End SanitizerFacts.

(** ** Insertion sort *)
Section InsertionSort.

Variable A : Type.
Variable R : A -> A -> Prop.
Variable before : A -> A -> bool.
Hypothesis before_true : forall x y, before x y = true -> R x y.
Hypothesis before_false : forall x y, before x y = false -> R y x.
Hypothesis R_trans : forall x y z, R x y -> R y z -> R x z.

Lemma insert_perm (x : A) (l : list A) :
  Permutation (insert before x l) (x :: l).
Proof.
  induction l as [|y l IH]; simpl; [reflexivity|].
  destruct (before x y); [reflexivity|].
  rewrite IH. apply perm_swap.
Qed.

Lemma insert_sorted (x : A) (l : list A) :
  StronglySorted R l -> StronglySorted R (insert before x l).
Proof.
  induction 1 as [|y l Hs IH Hall]; simpl.
  - constructor; constructor.
  - destruct (before x y) eqn:E.
    + constructor; [now constructor|]. constructor; [now apply before_true|].
      revert Hall. apply Forall_impl. intros z Hz.
      eapply R_trans; [apply before_true|]; eassumption.
    + constructor; [assumption|].
      apply (Permutation_Forall (Permutation_sym (insert_perm x l))).
      constructor; [now apply before_false | assumption].
Qed.

Lemma insertion_sort_perm (l : list A) :
  Permutation (insertion_sort before l) l.
Proof.
  induction l as [|x l IH]; simpl; [reflexivity|].
  unfold insertion_sort in *. simpl.
  rewrite insert_perm. now constructor.
Qed.

Lemma insertion_sort_sorted (l : list A) :
  StronglySorted R (insertion_sort before l).
Proof.
  induction l as [|x l IH]; simpl; [constructor|].
  now apply insert_sorted.
Qed.

End InsertionSort.

(** ** Selector, filter and ranker over any sort that meets the contract
    of [sort_values] *)
Section PipelineFacts.

Variable float : Type.
Variable sort_values : DataFrame float -> DataFrame float.

(** What pandas documents of [sort_values] with the default kind: the rows
    of the frame, ascending by the key.  Stability is not promised. *)
Hypothesis sort_values_perm : forall df, Permutation (sort_values df) df.
Hypothesis sort_values_sorted :
  forall df, StronglySorted (@Timestamp_le float) (sort_values df).

Local Abbreviation latest := (latest sort_values).
Local Abbreviation history_filter := (history_filter sort_values).
Local Abbreviation tag_frame := (tag_frame sort_values).
Local Abbreviation fade := (fade sort_values).
Local Abbreviation limited := (limited sort_values).

Lemma key_leb_trans (a b c : option Z) :
  key_leb a b = true -> key_leb b c = true -> key_leb a c = true.
Proof.
  destruct a, b, c; simpl; try congruence; rewrite !Z.leb_le; lia.
Qed.

Lemma key_leb_total (a b : option Z) :
  key_leb a b = false -> key_leb b a = true.
Proof.
  destruct a, b; simpl; try congruence.
  rewrite Z.leb_gt, Z.leb_le. lia.
Qed.

Lemma Timestamp_le_trans (r1 r2 r3 : row float) :
  Timestamp_le r1 r2 -> Timestamp_le r2 r3 -> Timestamp_le r1 r3.
Proof. apply key_leb_trans. Qed.



Lemma Timestamp_le_refl (r : row float) : Timestamp_le r r.
Proof.
  unfold Timestamp_le, Timestamp_leb.
  destruct (sort_key r); simpl; [apply Z.leb_refl | reflexivity].
Qed.

Lemma sort_values_nil : sort_values [] = [].
Proof. apply Permutation_nil. symmetry. apply sort_values_perm. Qed.

Lemma iloc_last_in (l : DataFrame float) (r : row float) :
  iloc_last l = inr r -> In r l.
Proof.
  unfold iloc_last. destruct (List.length l) as [|n]; [discriminate|].
  destruct (nth_error l n) as [r'|] eqn:E; [|discriminate].
  intros [= <-]. eapply nth_error_In; eassumption.
Qed.


(** *** The stable sort *)

Lemma stable_sort_perm (df : DataFrame float) : Permutation (stable_sort df) df.
Proof. apply insertion_sort_perm. Qed.

Lemma stable_sort_sorted (df : DataFrame float) :
  StronglySorted (@Timestamp_le float) (stable_sort df).
Proof.
  apply insertion_sort_sorted.
  - trivial.
  - intros x y. apply key_leb_total.
  - apply Timestamp_le_trans.
Qed.




(** *** Latest-position selector *)


Lemma latest_nil :
  latest [] = inl (IndexError "single positional indexer is out-of-bounds").
Proof. unfold LocationTracker.latest. simpl. now rewrite sort_values_nil. Qed.

Lemma latest_in (df_all : DataFrame float) (r : row float) :
  latest df_all = inr r -> In r df_all.
Proof.
  unfold LocationTracker.latest.
  destruct (mixes_naive_and_aware df_all); [discriminate|].
  intro H. apply iloc_last_in in H.
  now apply (Permutation_in _ (sort_values_perm df_all)).
Qed.


(** C3. When the frames of both floors are empty the selector raises: it
    returns no record, and the exception is the IndexError of [iloc[-1]]
    on an empty frame, the error the specification calls
    EmptyDatasetError. *)
Theorem latest_empty_fails (df_2nd df_3rd : DataFrame float) :
  df_2nd ++ df_3rd = [] ->
  latest (df_2nd ++ df_3rd)
  = inl (IndexError "single positional indexer is out-of-bounds").
Proof. intros ->. apply latest_nil. Qed.

(** *** History filter *)

Lemma tag_eq_true (a b : option string) :
  tag_eq a b = true <-> exists s, a = Some s /\ b = Some s.
Proof.
  destruct a as [s|], b as [s'|]; simpl; split;
    try discriminate; try (intros [x [? ?]]; discriminate).
  - intro H. apply String.eqb_eq in H. subst. now exists s'.
  - intros [x [E1 E2]]. injection E1; injection E2; intros; subst.
    apply String.eqb_refl.
Qed.

Lemma same_key_true (a b : option string) : same_key a b = true <-> a = b.
Proof.
  destruct a as [s|], b as [s'|]; simpl; split; try congruence.
  - intro H. apply String.eqb_eq in H. now subst.
  - intro H. injection H as ->. apply String.eqb_refl.
Qed.

Lemma same_key_refl (a : option string) : same_key a a = true.
Proof. now apply same_key_true. Qed.

Lemma same_key_sym (a b : option string) : same_key a b = same_key b a.
Proof.
  destruct a as [s|], b as [s'|]; simpl; try reflexivity. apply String.eqb_sym.
Qed.

Lemma in_unique (tags : list (option string)) (u : option string) :
  In u (unique tags) <-> In u tags.
Proof.
  induction tags as [|t tags IH]; simpl; [tauto|].
  rewrite filter_In, IH. split.
  - intros [H|[H _]]; auto.
  - intros [H|H]; auto.
    destruct (same_key t u) eqn:E.
    + left. now apply same_key_true.
    + right. now split.
Qed.

Lemma unique_NoDup (tags : list (option string)) : NoDup (unique tags).
Proof.
  induction tags as [|t tags IH]; simpl; constructor.
  - rewrite filter_In. intros [_ H].
    assert (E : same_key t t = true) by now apply same_key_true.
    now rewrite E in H.
  - now apply NoDup_filter.
Qed.

Lemma in_apply_limit (limit_choice : limit) (df : DataFrame float) (r : row float) :
  In r (apply_limit limit_choice df) -> In r df.
Proof.
  destruct limit_choice; simpl; [apply in_skipn | trivial].
Qed.

Lemma limited_tags (limit_choice : limit) (df : DataFrame float)
    (tag : option string) :
  Forall (fun r => tag_eq (Tag r) tag = true) (limited limit_choice df tag).
Proof.
  rewrite Forall_forall. intros r H.
  apply in_apply_limit in H. unfold LocationTracker.tag_frame in H.
  apply (Permutation_in _ (sort_values_perm _)) in H.
  now apply filter_In in H.
Qed.

Lemma limited_group (limit_choice : limit) (df : DataFrame float)
    (tag : option string) (t : string) :
  filter (in_group t) (limited limit_choice df tag)
  = if same_key tag (Some t) then limited limit_choice df tag else [].
Proof.
  pose proof (limited_tags limit_choice df tag) as H.
  destruct (same_key tag (Some t)) eqn:E.
  - apply same_key_true in E. subst. now apply filter_all.
  - apply filter_none. revert H. apply Forall_impl. intros r Hr.
    unfold in_group. destruct (tag_eq (Tag r) (Some t)) eqn:Et; [|reflexivity].
    apply tag_eq_true in Hr as [x [E1 E1']].
    apply tag_eq_true in Et as [y [E2 E3]].
    assert (tag = Some t) as Eq by congruence.
    apply same_key_true in Eq. congruence.
Qed.

Lemma limited_absent (limit_choice : limit) (df : DataFrame float) (t : string) :
  ~ In (Some t) (map (@Tag float) df) -> limited limit_choice df (Some t) = [].
Proof.
  intro H. unfold LocationTracker.limited, LocationTracker.tag_frame.
  rewrite filter_none; [rewrite sort_values_nil; now destruct limit_choice|].
  rewrite Forall_forall. intros r Hr.
  destruct (tag_eq (Tag r) (Some t)) eqn:E; [|reflexivity].
  apply tag_eq_true in E as [x [E1 E2]]. injection E2 as ->.
  exfalso. apply H. rewrite <- E1. now apply in_map.
Qed.

(** Under "All" the rows of one tag in the output are the frame built for
    that tag. *)
Lemma concat_group (limit_choice : limit) (df : DataFrame float)
    (tags : list (option string)) (t : string) :
  NoDup tags ->
  filter (in_group t) (List.concat (map (limited limit_choice df) tags))
  = if existsb (same_key (Some t)) tags then limited limit_choice df (Some t) else [].
Proof.
  intro Hnd. rewrite filter_concat, map_map.
  induction Hnd as [|u tags Hu Hnd IH]; [reflexivity|].
  cbn [map List.concat existsb].
  rewrite IH, limited_group, (same_key_sym (Some t) u).
  destruct (same_key u (Some t)) eqn:E; [|reflexivity]. cbn [orb].
  apply same_key_true in E. subst u.
  destruct (existsb (same_key (Some t)) tags) eqn:Ex; [|apply app_nil_r].
  apply existsb_exists in Ex as [v [Hv Ev]].
  apply same_key_true in Ev. subst v. contradiction.
Qed.

Lemma pd_concat_inr (frames : list (DataFrame float)) (out : DataFrame float) :
  pd_concat frames = inr out -> out = List.concat frames.
Proof.
  destruct frames; simpl; [discriminate|]. now intros [= <-].
Qed.

Lemma history_filter_group (df : DataFrame float) (tag_choice : option string)
    (limit_choice : limit) (out : DataFrame float) (t : string) :
  history_filter df tag_choice limit_choice = inr out ->
  selected tag_choice t = true ->
  filter (in_group t) out = limited limit_choice df (Some t).
Proof.
  unfold LocationTracker.history_filter, selected.
  destruct (tag_eq tag_choice (Some "All"%string)) eqn:EAll; simpl.
  - intros H _. apply pd_concat_inr in H. subst out.
    rewrite concat_group by apply unique_NoDup.
    destruct (existsb _ _) eqn:Ex; [reflexivity|].
    symmetry. apply limited_absent. intro Hin.
    apply in_unique in Hin.
    assert (existsb (same_key (Some t)) (unique (map (@Tag float) df)) = true).
    { apply existsb_exists. exists (Some t). split; [assumption|].
      now apply same_key_true. }
    congruence.
  - intros H Ht. injection H as <-.
    apply tag_eq_true in Ht as [x [-> E]]. injection E as ->.
    rewrite limited_group. now rewrite same_key_refl.
Qed.

(** The filter returns unless the frame is empty and every tag is asked
    for. *)
Lemma history_filter_returns (df : DataFrame float) (tag_choice : option string)
    (limit_choice : limit) :
  df <> [] \/ tag_eq tag_choice (Some "All"%string) = false ->
  exists out, history_filter df tag_choice limit_choice = inr out.
Proof.
  unfold LocationTracker.history_filter.
  destruct (tag_eq tag_choice (Some "All"%string)); simpl.
  - intros [H|H]; [|discriminate].
    destruct df as [|r df]; [contradiction|]. simpl. eauto.
  - eauto.
Qed.

Lemma group_of_frame (df : DataFrame float) (t : string) :
  filter (fun r => tag_eq (Tag r) (Some t)) df = filter (in_group t) df.
Proof. reflexivity. Qed.

(** With a numeric limit the filter, whenever it returns, keeps of each
    selected tag the [limit] most recent records, all of them when the tag
    has no more than [limit]. *)
Lemma history_filter_most_recent (df : DataFrame float)
    (tag_choice : option string) (n : nat) (t : string) :
  df <> [] \/ tag_eq tag_choice (Some "All"%string) = false ->
  selected tag_choice t = true ->
  exists out older,
    history_filter df tag_choice (Last n) = inr out
    /\ Permutation (older ++ filter (in_group t) out) (filter (in_group t) df)
    /\ List.length (filter (in_group t) out)
       = Nat.min n (List.length (filter (in_group t) df))
    /\ (forall a b, In a older -> In b (filter (in_group t) out) ->
                    Timestamp_le a b)
    /\ (List.length (filter (in_group t) df) <= n ->
        Permutation (filter (in_group t) out) (filter (in_group t) df)).
Proof.
  intros Hret Hsel.
  destruct (@history_filter_returns df tag_choice (Last n) Hret) as [out Hout].
  pose proof (@history_filter_group _ _ _ _ t Hout Hsel) as Hg.
  unfold LocationTracker.limited, LocationTracker.tag_frame in Hg.
  rewrite group_of_frame in Hg. simpl in Hg.
  set (S := sort_values (filter (in_group t) df)) in *.
  assert (Hp : Permutation S (filter (in_group t) df))
    by apply sort_values_perm.
  assert (Hs : StronglySorted (@Timestamp_le float) S)
    by apply sort_values_sorted.
  exists out, (firstn (List.length S - n) S). rewrite Hg. unfold tail.
  split; [assumption|]. split; [now rewrite firstn_skipn|].
  split; [rewrite length_skipn, <- (Permutation_length Hp); lia|].
  split.
  - rewrite <- (firstn_skipn (List.length S - n) S) in Hs.
    now apply sorted_app_cross.
  - intro Hle. rewrite <- (Permutation_length Hp) in Hle.
    now replace (List.length S - n) with 0 by lia.
Qed.

(** C4. The failing input: on an empty floor frame with every tag asked
    for there is no frame to concatenate, and the filter raises instead of
    returning the empty result. *)
Theorem history_filter_empty_frame_raises (n : nat) :
  history_filter [] (Some "All"%string) (Last n)
  = inl (ValueError "No objects to concatenate").
Proof. reflexivity. Qed.

(** The branch for one tag returns the empty frame on the same input. *)
Lemma history_filter_empty_frame_one_tag (tag : string) (n : nat) :
  tag <> "All"%string ->
  history_filter [] (Some tag) (Last n) = inr [].
Proof.
  intro H. unfold LocationTracker.history_filter. simpl.
  apply String.eqb_neq in H. rewrite H. simpl.
  unfold LocationTracker.limited, LocationTracker.tag_frame. simpl.
  now rewrite sort_values_nil.
Qed.

Lemma existsb_tag_eq_nan (tags : list (option string)) :
  existsb (tag_eq None) tags = false.
Proof. induction tags; simpl; auto. Qed.

Lemma concat_frames_perm (df : DataFrame float) (tags : list (option string)) :
  NoDup tags ->
  Permutation (List.concat (map (limited AllPositions df) tags))
              (filter (fun r => existsb (tag_eq (Tag r)) tags) df).
Proof.
  induction 1 as [|u tags Hu Hnd IH]; simpl.
  - rewrite filter_none; [constructor|]. now apply Forall_forall.
  - etransitivity; [|apply filter_disjoint_app].
    + apply Permutation_app; [apply sort_values_perm | exact IH].
    + intros r _ Hr. destruct (existsb (tag_eq (Tag r)) tags) eqn:Ex;
        [|reflexivity].
      apply existsb_exists in Ex as [v [Hv Ev]].
      apply tag_eq_true in Hr as [x [E1 E2]].
      apply tag_eq_true in Ev as [y [E3 E4]].
      exfalso. apply Hu. congruence.
Qed.

Lemma tagged_in_unique (df : DataFrame float) (r : row float) :
  In r df ->
  existsb (tag_eq (Tag r)) (unique (map (@Tag float) df)) = has_tag r.
Proof.
  intro Hin. unfold has_tag. destruct (Tag r) as [s|] eqn:E; simpl.
  - apply existsb_exists. exists (Some s). split.
    + apply in_unique. rewrite <- E. now apply in_map.
    + apply String.eqb_refl.
  - apply existsb_tag_eq_nan.
Qed.

(** C5, as the code has it. For every non-empty floor frame the filter
    with tag "All" and limit "All" returns the records that have a tag, each
    exactly once: the frames of the distinct tags, each ascending by
    Timestamp, one after the other in order of first appearance.  Records
    whose tag is missing are left out. *)
Theorem history_filter_all_keeps_tagged (df : DataFrame float) :
  df <> [] ->
  exists out,
    history_filter df (Some "All"%string) AllPositions = inr out
    /\ out = List.concat (map (fun tag => tag_frame tag df)
                              (unique (map (@Tag float) df)))
    /\ Permutation out (filter (@has_tag float) df)
    /\ forall t, StronglySorted (@Timestamp_le float) (filter (in_group t) out).
Proof.
  intro Hne.
  destruct (@history_filter_returns df (Some "All"%string) AllPositions
              (or_introl Hne)) as [out Hout].
  exists out. split; [assumption|].
  pose proof Hout as Hc. unfold LocationTracker.history_filter in Hc.
  simpl in Hc. apply pd_concat_inr in Hc.
  split; [exact Hc|]. split.
  - rewrite Hc. etransitivity; [apply concat_frames_perm, unique_NoDup|].
    erewrite filter_ext_in; [reflexivity|].
    intros r Hr. now apply tagged_in_unique.
  - intro t. rewrite (@history_filter_group _ _ _ _ t Hout eq_refl).
    apply sort_values_sorted.
Qed.

(** *** Fade ranker *)

Lemma cumcount_from_length (above df : DataFrame float) :
  List.length (cumcount_from above df) = List.length df.
Proof.
  revert above. induction df as [|r df IH]; intro above; simpl; [reflexivity|].
  now rewrite IH.
Qed.

Lemma map_fst_combine (A B : Type) (l : list A) (l' : list B) :
  List.length l = List.length l' -> map fst (combine l l') = l.
Proof.
  revert l'. induction l as [|a l IH]; intros [|b l']; simpl; try discriminate;
    [reflexivity|].
  intro H. now rewrite IH by lia.
Qed.

Lemma fade_rec (df : DataFrame float) :
  map (@rec float) (fade df) = sort_values df.
Proof.
  unfold LocationTracker.fade. rewrite map_map. simpl.
  apply map_fst_combine. unfold cumcount.
  now rewrite cumcount_from_length.
Qed.

(** The orders of one group run from the number of its rows above. *)
Lemma group_orders_seq (s : string) (above df : DataFrame float) :
  group_orders s (combine df (cumcount_from above df))
  = seq (List.length (filter (in_group s) above))
        (List.length (filter (in_group s) df)).
Proof.
  revert above. induction df as [|r df IH]; intro above; [reflexivity|].
  unfold group_orders in *. cbn [cumcount_from combine flat_map fst snd].
  rewrite IH. cbn [filter].
  destruct (in_group s r) eqn:E; [|reflexivity].
  unfold in_group in E. apply tag_eq_true in E as [x [E1 E2]].
  injection E2 as <-. rewrite E1. reflexivity.
Qed.

(** The rows of one group in the ranked frame, in frame order. *)
Lemma group_attach (s : string) (T : list (row float * option nat))
    (above df : DataFrame float) :
  filter (fun q => in_group s (rec q))
         (map (attach T) (combine df (cumcount_from above df)))
  = map (fun rk => mkRanked (fst rk) (Some (snd rk))
                     (Some (rank_pct (group_orders s T) (snd rk))))
        (combine (filter (in_group s) df)
                 (seq (List.length (filter (in_group s) above))
                      (List.length (filter (in_group s) df)))).
Proof.
  revert above. induction df as [|r df IH]; intro above; [reflexivity|].
  cbn [cumcount_from combine map filter]. rewrite IH.
  unfold attach at 1. cbn [rec fst snd filter].
  destruct (in_group s r) eqn:E; [|reflexivity].
  pose proof E as E'. unfold in_group in E'.
  apply tag_eq_true in E' as [x [E1 E2]]. injection E2 as <-.
  rewrite E1. cbn [List.length seq combine map fst snd].
  unfold attach. cbn [fst snd]. now rewrite E1.
Qed.

Lemma less_in_seq (k n : nat) :
  List.length (filter (fun u => u <? k) (seq 0 n)) = Nat.min k n.
Proof.
  induction n as [|n IH]; [now rewrite Nat.min_0_r|].
  rewrite seq_S, filter_app, length_app, IH. simpl.
  destruct (n <? k) eqn:E; simpl.
  - apply Nat.ltb_lt in E. lia.
  - apply Nat.ltb_ge in E. lia.
Qed.

Lemma equal_in_seq (k n : nat) :
  List.length (filter (fun u => u =? k) (seq 0 n)) = if k <? n then 1 else 0.
Proof.
  induction n as [|n IH]; [reflexivity|].
  rewrite seq_S, filter_app, length_app, IH. simpl.
  destruct (n =? k) eqn:E; simpl.
  - apply Nat.eqb_eq in E. subst.
    rewrite Nat.ltb_irrefl.
    now assert ((k <? S k) = true) as -> by (apply Nat.ltb_lt; lia).
  - apply Nat.eqb_neq in E.
    destruct (k <? n) eqn:E1, (k <? S n) eqn:E2; try reflexivity.
    + apply Nat.ltb_lt in E1. apply Nat.ltb_ge in E2. lia.
    + apply Nat.ltb_ge in E1. apply Nat.ltb_lt in E2. lia.
Qed.

(** Among distinct orders 0 .. n-1 the percentile rank of order [k] is
    (k + 1) / n. *)
Lemma rank_pct_seq (k n : nat) :
  k < n -> (rank_pct (seq 0 n) k == share (k + 1) n)%Q.
Proof.
  intro H. unfold rank_pct, share.
  rewrite less_in_seq, equal_in_seq, length_seq.
  assert ((k <? n) = true) as -> by now apply Nat.ltb_lt.
  rewrite Nat.min_l by lia.
  unfold Qeq; simpl Qnum; simpl Qden.
  rewrite <- !positive_nat_Z, !Nat2Pos.id by lia. lia.
Qed.

Lemma group_fade (s : string) (df : DataFrame float) :
  group s (fade df)
  = map (fun rk => mkRanked (fst rk) (Some (snd rk))
                     (Some (rank_pct
                              (seq 0 (List.length (filter (in_group s) (sort_values df))))
                              (snd rk))))
        (combine (filter (in_group s) (sort_values df))
                 (seq 0 (List.length (filter (in_group s) (sort_values df))))).
Proof.
  unfold group, LocationTracker.fade, cumcount. cbv zeta.
  rewrite group_attach, group_orders_seq. reflexivity.
Qed.

Lemma nth_error_combine_seq (A : Type) (l : list A) (a i : nat) :
  nth_error (combine l (seq a (List.length l))) i
  = option_map (fun r => (r, a + i)) (nth_error l i).
Proof.
  revert a i. induction l as [|x l IH]; intros a [|i]; simpl; try reflexivity.
  - now rewrite Nat.add_0_r.
  - rewrite IH. destruct (nth_error l i); simpl; [|reflexivity].
    do 2 f_equal. lia.
Qed.

Lemma group_fade_length (s : string) (df : DataFrame float) :
  List.length (group s (fade df))
  = List.length (filter (in_group s) (sort_values df)).
Proof.
  rewrite group_fade, length_map, length_combine, length_seq. lia.
Qed.

(** The record at position [i] of a group of size [n]: the [i]-th row of
    the tag in the sorted frame, with order [i] and alpha (i + 1) / n. *)
Lemma group_fade_nth (s : string) (df : DataFrame float) (i : nat)
    (q : ranked float) :
  nth_error (group s (fade df)) i = Some q ->
  i < List.length (group s (fade df))
  /\ nth_error (filter (in_group s) (sort_values df)) i = Some (rec q)
  /\ order q = Some i
  /\ exists a, alpha q = Some a
               /\ (a == share (i + 1) (List.length (group s (fade df))))%Q.
Proof.
  intro H. assert (Hi : i < List.length (group s (fade df))).
  { apply nth_error_Some. congruence. }
  split; [assumption|].
  rewrite group_fade_length in *. rewrite group_fade in H.
  rewrite nth_error_map, nth_error_combine_seq in H.
  destruct (nth_error (filter (in_group s) (sort_values df)) i) as [r|];
    [|discriminate].
  simpl in H. injection H as <-. simpl.
  repeat split. eexists. split; [reflexivity|]. now apply rank_pct_seq.
Qed.

Lemma sorted_filter (A : Type) (R : A -> A -> Prop) (p : A -> bool) (l : list A) :
  StronglySorted R l -> StronglySorted R (filter p l).
Proof.
  induction 1 as [|a l Hs IH Hall]; simpl; [constructor|].
  destruct (p a); [|assumption]. constructor; [assumption|].
  rewrite Forall_forall in *. intros x Hx. apply filter_In in Hx as [Hx _].
  now apply Hall.
Qed.

Lemma sorted_nth (A : Type) (R : A -> A -> Prop) (l : list A) :
  (forall x, R x x) -> StronglySorted R l ->
  forall i j a b, i <= j -> nth_error l i = Some a -> nth_error l j = Some b ->
                  R a b.
Proof.
  intros Hrefl. induction 1 as [|x l Hs IH Hall]; intros i j a b Hij Ha Hb.
  - now destruct i.
  - destruct i as [|i], j as [|j]; simpl in *; try lia.
    + injection Ha as <-. injection Hb as <-. apply Hrefl.
    + injection Ha as <-. rewrite Forall_forall in Hall.
      apply Hall. eapply nth_error_In; eassumption.
    + apply (IH i j); [lia | assumption | assumption].
Qed.

Lemma group_rows_sorted (s : string) (df : DataFrame float) (i j : nat)
    (q q' : ranked float) :
  i <= j ->
  nth_error (group s (fade df)) i = Some q ->
  nth_error (group s (fade df)) j = Some q' ->
  Timestamp_le (rec q) (rec q').
Proof.
  intros Hij Hq Hq'.
  apply group_fade_nth in Hq as [_ [Hq _]].
  apply group_fade_nth in Hq' as [_ [Hq' _]].
  eapply (sorted_nth (l := filter (in_group s) (sort_values df)));
    [apply Timestamp_le_refl | | eassumption | eassumption | eassumption].
  apply sorted_filter, sort_values_sorted.
Qed.

Lemma Zpos_of_nat (n : nat) : 0 < n -> Z.pos (Pos.of_nat n) = Z.of_nat n.
Proof.
  intro H. rewrite <- positive_nat_Z, Nat2Pos.id by lia. reflexivity.
Qed.

Lemma share_lt (k k' n : nat) : 0 < n -> k < k' -> (share k n < share k' n)%Q.
Proof.
  intros Hn H. unfold share, Qlt. simpl. rewrite Zpos_of_nat by assumption. nia.
Qed.

Lemma share_pos (k n : nat) : 0 < k -> (0 < share k n)%Q.
Proof. intro H. unfold share, Qlt. simpl. lia. Qed.

Lemma share_le_1 (k n : nat) : 0 < n -> k <= n -> (share k n <= 1)%Q.
Proof.
  intros Hn H. unfold share, Qle. simpl. rewrite Zpos_of_nat by assumption. lia.
Qed.

Lemma share_all (n : nat) : 0 < n -> (share n n == 1)%Q.
Proof.
  intro Hn. unfold share, Qeq. simpl. rewrite Zpos_of_nat by assumption. lia.
Qed.

Lemma filter_perm (A : Type) (p : A -> bool) (l l' : list A) :
  Permutation l l' -> Permutation (filter p l) (filter p l').
Proof.
  induction 1 as [|x l l' _ IH|x y l|l l' l'' _ IH1 _ IH2]; simpl.
  - constructor.
  - destruct (p x); [now constructor | assumption].
  - destruct (p x), (p y); try reflexivity. apply perm_swap.
  - now transitivity (filter p l').
Qed.

Lemma group_fade_rec (s : string) (df : DataFrame float) :
  map (@rec float) (group s (fade df)) = filter (in_group s) (sort_values df).
Proof.
  rewrite group_fade, map_map. simpl.
  apply map_fst_combine. now rewrite length_seq.
Qed.

Lemma share_one (k n : nat) : 0 < n -> (share k n == 1)%Q -> k = n.
Proof.
  intros Hn. unfold share, Qeq. simpl. rewrite Zpos_of_nat by assumption. lia.
Qed.

(** C6, as the code has it. For every frame handed to the ranker and
    every tag, the rows of the tag group in the ranked frame carry the
    records of that tag in the frame, each once, in ascending order of
    Timestamp.  With N of them, the record at position i has order i and
    alpha (i + 1) / N, which lies in (0, 1]; the N alphas are pairwise
    distinct; a record strictly later than another of its group has the
    larger alpha; alpha 1, the maximum, goes to a record with the latest
    Timestamp of the group, and to the last row of the group only, so of
    several records sharing the latest Timestamp one alone has it; and the
    single record of a group of size 1 has alpha 1. *)
Theorem fade_alpha_per_group (df : DataFrame float) (s : string) :
  map (@rec float) (group s (fade df)) = filter (in_group s) (sort_values df)
  /\ Permutation (map (@rec float) (group s (fade df))) (filter (in_group s) df)
  /\ (forall i q, nth_error (group s (fade df)) i = Some q ->
     order q = Some i
     /\ exists a, alpha q = Some a
          /\ (a == share (i + 1) (List.length (filter (in_group s) df)))%Q
          /\ (0 < a)%Q /\ (a <= 1)%Q)
  /\ (forall i j q q' a a',
        nth_error (group s (fade df)) i = Some q ->
        nth_error (group s (fade df)) j = Some q' ->
        i <> j -> alpha q = Some a -> alpha q' = Some a' -> ~ (a == a')%Q)
  /\ (forall q q' a a',
        In q (group s (fade df)) -> In q' (group s (fade df)) ->
        Timestamp_lt (rec q) (rec q') ->
        alpha q = Some a -> alpha q' = Some a' -> (a < a')%Q)
  /\ (group s (fade df) <> [] ->
      exists q a, In q (group s (fade df))
        /\ alpha q = Some a /\ (a == 1)%Q
        /\ (forall q', In q' (group s (fade df)) ->
                       Timestamp_le (rec q') (rec q))
        /\ (forall q' a', In q' (group s (fade df)) -> alpha q' = Some a' ->
                          (a' <= a)%Q))
  /\ (forall i q a, nth_error (group s (fade df)) i = Some q ->
        alpha q = Some a -> (a == 1)%Q ->
        S i = List.length (group s (fade df)))
  /\ (forall q, group s (fade df) = [q] ->
                exists a, alpha q = Some a /\ (a == 1)%Q).
Proof.
  assert (Hperm : Permutation (map (@rec float) (group s (fade df)))
                              (filter (in_group s) df)).
  { rewrite group_fade_rec. apply filter_perm, sort_values_perm. }
  assert (Hlen : List.length (filter (in_group s) df)
                 = List.length (group s (fade df))).
  { rewrite <- (Permutation_length Hperm). apply length_map. }
  split; [apply group_fade_rec|]. split; [assumption|]. rewrite Hlen.
  set (grp := group s (fade df)). set (n := List.length grp).
  assert (Hnth : forall i q, nth_error grp i = Some q ->
            i < n /\ order q = Some i
            /\ exists a, alpha q = Some a /\ (a == share (i + 1) n)%Q).
  { intros i q H. apply group_fade_nth in H as [Hi [_ [Ho Ha]]]. auto. }
  assert (Hbound : forall i q a, nth_error grp i = Some q -> alpha q = Some a ->
            (a == share (i + 1) n)%Q /\ (0 < a)%Q /\ (a <= 1)%Q).
  { intros i q a H Ha. apply Hnth in H as [Hi [_ [a0 [Ea Eq]]]].
    assert (a0 = a) by congruence. subst a0.
    split; [assumption|]. rewrite Eq. split.
    - apply share_pos. lia.
    - apply share_le_1; lia. }
  split.
  { intros i q H. destruct (Hnth i q H) as [Hi [Ho [a [Ea Eq]]]].
    split; [assumption|]. exists a. split; [assumption|].
    now apply (Hbound i q a). }
  split.
  { intros i j q q' a a' Hq Hq' Hij Ha Ha' Heq.
    destruct (Hnth i q Hq) as [Hi _]. destruct (Hnth j q' Hq') as [Hj _].
    destruct (Hbound i q a Hq Ha) as [Ei _].
    destruct (Hbound j q' a' Hq' Ha') as [Ej _].
    rewrite Ei, Ej in Heq.
    destruct (Nat.lt_total i j) as [Hlt|[Heq'|Hgt]]; [|contradiction|].
    - apply (Qlt_irrefl (share (i + 1) n)). rewrite Heq at 2.
      apply share_lt; lia.
    - apply (Qlt_irrefl (share (i + 1) n)). rewrite Heq at 1.
      apply share_lt; lia. }
  split.
  { intros q q' a a' Hq Hq' Hlt Ha Ha'.
    apply In_nth_error in Hq as [i Hq]. apply In_nth_error in Hq' as [j Hq'].
    destruct (Hnth i q Hq) as [Hi _].
    destruct (Hbound i q a Hq Ha) as [Ei _].
    destruct (Hbound j q' a' Hq' Ha') as [Ej _].
    rewrite Ei, Ej.
    destruct (Nat.lt_ge_cases i j) as [Hij|Hji]; [apply share_lt; lia|].
    pose proof (group_rows_sorted _ _ Hji Hq' Hq) as Hle.
    unfold Timestamp_lt in Hlt. unfold Timestamp_le in Hle. congruence. }
  split.
  { intro Hne. assert (Hn : 0 < n).
    { subst n. destruct grp; [contradiction | simpl; lia]. }
    destruct (nth_error grp (n - 1)) as [q|] eqn:Hq.
    2:{ apply nth_error_None in Hq. fold n in Hq. lia. }
    destruct (Hnth _ _ Hq) as [_ [_ [a [Ea Eq]]]].
    assert (E1 : (a == 1)%Q).
    { rewrite Eq. replace (n - 1 + 1) with n by lia. now apply share_all. }
    exists q, a. split; [eapply nth_error_In; eassumption|].
    split; [assumption|]. split; [assumption|]. split.
    - intros q' Hq'. apply In_nth_error in Hq' as [j Hq'].
      destruct (Hnth _ _ Hq') as [Hj _].
      apply (group_rows_sorted s df (i := j) (j := n - 1)); [lia | assumption | assumption].
    - intros q' a' Hq' Ha'. apply In_nth_error in Hq' as [j Hq'].
      destruct (Hbound _ _ _ Hq' Ha') as [_ [_ Hle]]. now rewrite E1. }
  split.
  { intros i q a Hq Ha E1. destruct (Hnth i q Hq) as [Hi _].
    destruct (Hbound i q a Hq Ha) as [Ei _]. rewrite Ei in E1.
    apply share_one in E1; lia. }
  intros q Hq. assert (Hn : n = 1) by (subst n; now rewrite Hq).
  assert (H0 : nth_error grp 0 = Some q) by now rewrite Hq.
  destruct (Hnth _ _ H0) as [_ [_ [a [Ea Eq]]]].
  exists a. split; [assumption|]. rewrite Eq, Hn. reflexivity.
Qed.

(** C7, as the code has it. The ranker first sorts the whole frame by
    Timestamp: the records of its output are the records of its input,
    none lost, none added and none changed in any field, in ascending
    order of Timestamp, each with its [order] and [alpha] attached. *)
Theorem fade_sorts_then_attaches (df_filtered : DataFrame float) :
  map (@rec float) (fade df_filtered) = sort_values df_filtered
  /\ Permutation (map (@rec float) (fade df_filtered)) df_filtered
  /\ StronglySorted (@Timestamp_le float) (map (@rec float) (fade df_filtered))
  /\ List.length (fade df_filtered) = List.length df_filtered.
Proof.
  rewrite fade_rec. split; [reflexivity|].
  split; [apply sort_values_perm|]. split; [apply sort_values_sorted|].
  rewrite <- (length_map (@rec float)), fade_rec.
  apply Permutation_length, sort_values_perm.
Qed.

(** *** Further properties of the filter and the ranker *)

Lemma limited_in (limit_choice : limit) (df : DataFrame float)
    (tag : option string) (r : row float) :
  In r (limited limit_choice df tag) ->
  In r df /\ tag_eq (Tag r) tag = true.
Proof.
  intro H. apply in_apply_limit in H. unfold LocationTracker.tag_frame in H.
  apply (Permutation_in _ (sort_values_perm _)) in H.
  now apply filter_In in H.
Qed.

Lemma history_filter_in (df : DataFrame float) (tag_choice : option string)
    (limit_choice : limit) (out : DataFrame float) (r : row float) :
  history_filter df tag_choice limit_choice = inr out ->
  In r out ->
  In r df /\ exists t, Tag r = Some t /\ selected tag_choice t = true.
Proof.
  unfold LocationTracker.history_filter, selected.
  destruct (tag_eq tag_choice (Some "All"%string)) eqn:EAll; simpl.
  - intros H Hr. apply pd_concat_inr in H. subst out.
    apply in_concat in Hr as [frame [Hf Hr]].
    apply in_map_iff in Hf as [u [<- _]].
    apply limited_in in Hr as [Hin Ht]. split; [assumption|].
    apply tag_eq_true in Ht as [t [Ht _]]. now exists t.
  - intros [= <-] Hr. apply limited_in in Hr as [Hin Ht].
    split; [assumption|].
    apply tag_eq_true in Ht as [t [Ht ->]]. exists t.
    split; [assumption|]. simpl. apply String.eqb_refl.
Qed.

(** Whatever is selected, a record the filter returns is a record of the
    floor frame, it has a tag, and the tag is among the selected ones. *)
Theorem history_filter_rows (df : DataFrame float) (tag_choice : option string)
    (limit_choice : limit) (out : DataFrame float) :
  history_filter df tag_choice limit_choice = inr out ->
  forall r, In r out ->
    In r df /\ exists t, Tag r = Some t /\ selected tag_choice t = true.
Proof. intros H r Hr. eapply history_filter_in; eassumption. Qed.

(** A single tag, or the NaN option, that no record of the frame carries
    gives the empty frame, not an error. *)
Theorem history_filter_absent_tag (df : DataFrame float)
    (tag_choice : option string) (limit_choice : limit) :
  tag_eq tag_choice (Some "All"%string) = false ->
  (forall r, In r df -> tag_eq (Tag r) tag_choice = false) ->
  history_filter df tag_choice limit_choice = inr [].
Proof.
  intros HAll Hnone. unfold LocationTracker.history_filter. rewrite HAll. simpl.
  unfold LocationTracker.limited, LocationTracker.tag_frame.
  rewrite filter_none by now apply Forall_forall.
  rewrite sort_values_nil. now destruct limit_choice.
Qed.

Lemma fade_history_in (df : DataFrame float) (tag_choice : option string)
    (limit_choice : limit) (out : DataFrame float) (q : ranked float) :
  history_filter df tag_choice limit_choice = inr out ->
  In q (fade out) ->
  In (rec q) df
  /\ exists t i a, Tag (rec q) = Some t /\ selected tag_choice t = true
       /\ order q = Some i /\ alpha q = Some a /\ (0 < a)%Q /\ (a <= 1)%Q.
Proof.
  intros Hout Hq.
  assert (Hr : In (rec q) out).
  { apply (Permutation_in _ (sort_values_perm out)).
    rewrite <- fade_rec. now apply in_map. }
  destruct (@history_filter_in _ _ _ _ _ Hout Hr) as [Hin [t [Ht Hsel]]].
  split; [assumption|]. exists t.
  assert (Hg : In q (group t (fade out))).
  { apply filter_In. split; [assumption|].
    unfold in_group. rewrite Ht. simpl. apply String.eqb_refl. }
  apply In_nth_error in Hg as [i Hi].
  destruct (@group_fade_nth _ _ _ _ Hi) as [Hlt [_ [Ho [a [Ha Eq]]]]].
  exists i, a. repeat split; try assumption.
  - rewrite Eq. apply share_pos. lia.
  - rewrite Eq. apply share_le_1; lia.
Qed.

(** Every row the ranker makes of a filter output carries a record of the
    floor frame with a selected tag, and has its order and an alpha in
    (0, 1]: no point of the chart is left without opacity. *)
Theorem fade_history_complete (df : DataFrame float) (tag_choice : option string)
    (limit_choice : limit) (out : DataFrame float) :
  history_filter df tag_choice limit_choice = inr out ->
  forall q, In q (fade out) ->
    In (rec q) df
    /\ exists t i a, Tag (rec q) = Some t /\ selected tag_choice t = true
         /\ order q = Some i /\ alpha q = Some a /\ (0 < a)%Q /\ (a <= 1)%Q.
Proof. intros H q Hq. eapply fade_history_in; eassumption. Qed.

(** With one tag selected the whole ranked frame is one group: its rows
    are the filter output ascending by Timestamp, and the row at position
    i of n has order i and alpha (i + 1) / n. *)
Theorem fade_single_tag (df : DataFrame float) (t : string)
    (limit_choice : limit) (out : DataFrame float) :
  t <> "All"%string ->
  history_filter df (Some t) limit_choice = inr out ->
  List.length (fade out) = List.length out
  /\ forall i q, nth_error (fade out) i = Some q ->
       nth_error (sort_values out) i = Some (rec q)
       /\ order q = Some i
       /\ exists a, alpha q = Some a
            /\ (a == share (i + 1) (List.length out))%Q.
Proof.
  intros Ht Hout.
  assert (Hlen : List.length (fade out) = List.length out).
  { rewrite <- (length_map (@rec float)), fade_rec.
    apply Permutation_length, sort_values_perm. }
  assert (Htag : forall r, In r out -> in_group t r = true).
  { intros r Hr.
    destruct (@history_filter_in _ _ _ _ _ Hout Hr) as [_ [t' [Et Hsel]]].
    unfold selected in Hsel. simpl in Hsel.
    apply String.eqb_neq in Ht. rewrite Ht in Hsel. simpl in Hsel.
    apply String.eqb_eq in Hsel. subst t'.
    unfold in_group. rewrite Et. simpl. apply String.eqb_refl. }
  assert (Hg : group t (fade out) = fade out).
  { apply filter_all, Forall_forall. intros q Hq. apply Htag.
    apply (Permutation_in _ (sort_values_perm out)).
    rewrite <- fade_rec. now apply in_map. }
  assert (Hs : filter (in_group t) (sort_values out) = sort_values out).
  { apply filter_all, Forall_forall. intros r Hr. apply Htag.
    now apply (Permutation_in _ (sort_values_perm out)). }
  split; [assumption|]. intros i q Hq.
  rewrite <- Hg in Hq.
  destruct (@group_fade_nth _ _ _ _ Hq) as [_ [Hr [Ho [a [Ha Eq]]]]].
  rewrite Hs in Hr. rewrite Hg, Hlen in Eq.
  split; [assumption|]. split; [assumption|]. now exists a.
Qed.

End PipelineFacts.

(** ** The options of the tag select box: line 95 *)
Section TagOptions.

Variable float : Type.
Variable sorted : list (option string) -> exception + list (option string).

(** What [sorted] returns holds the elements it was given, each as often
    as it was given. *)
Hypothesis sorted_perm :
  forall tags out, sorted tags = inr out -> Permutation out tags.

(** The options of the select box cannot be built exactly when [sorted]
    raises on the distinct tags of the floor, with the error of [sorted].
    Otherwise they are "All" followed by the tags of the floor, each once
    whatever the number of its rows, the rows without tag sharing one
    entry. *)
Theorem tag_options_each_tag (df : DataFrame float) :
  (forall e, tag_options sorted df = inl e
             <-> sorted (unique (map (@Tag float) df)) = inl e)
  /\ forall options, tag_options sorted df = inr options ->
       exists tags, options = Some "All"%string :: tags
         /\ NoDup tags
         /\ List.length tags = List.length (unique (map (@Tag float) df))
         /\ (forall t, In t tags <-> exists r, In r df /\ Tag r = t).
Proof.
  unfold tag_options, and_then. split.
  - intro e. destruct (sorted (unique (map (@Tag float) df))); split;
      congruence.
  - intros options H.
    destruct (sorted (unique (map (@Tag float) df))) as [e|tags] eqn:E;
      [discriminate|].
    injection H as <-. apply sorted_perm in E. exists tags.
    split; [reflexivity|]. split; [|split].
    + apply (Permutation_NoDup (Permutation_sym E)), unique_NoDup.
    + now apply Permutation_length.
    + intro t. split.
      * intro Hin. apply (Permutation_in _ E), in_unique, in_map_iff in Hin.
        destruct Hin as [r [Ht Hr]]. now exists r.
      * intros [r [Hr Ht]]. apply (Permutation_in _ (Permutation_sym E)).
        apply in_unique, in_map_iff. now exists r.
Qed.

End TagOptions.

(** ** One run of the script *)
Section RunFacts.

Variable float : Type.
Variable parse_numeric : string -> option float.
Variable parse_datetime : list (cell datetime) -> string -> option datetime.
Variable sort_values : DataFrame float -> DataFrame float.
Variable read_csv : list string -> string -> exception + table float.
Variable sorted : list (option string) -> exception + list (option string).

Local Abbreviation load_data := (load_data parse_numeric parse_datetime read_csv).
Local Abbreviation tag_options := (tag_options (float := float) sorted).
Local Abbreviation pipeline :=
  (pipeline parse_numeric parse_datetime sort_values read_csv sorted).
Local Abbreviation script :=
  (script parse_numeric parse_datetime sort_values read_csv sorted).

(** [load_data] fetches once, unless the sheet has no URL. *)
Lemma load_data_fetches (sheet_name : string) (fetched : list string) :
  match lookup sheet_name CSV_URLS with
  | Some url => snd (load_data sheet_name fetched) = fetched ++ [url]
  | None => load_data sheet_name fetched = (inl (KeyError sheet_name), fetched)
  end.
Proof.
  unfold LocationTracker.load_data. now destruct (lookup sheet_name CSV_URLS).
Qed.

Lemma load_data_returns (sheet_name : string) (fetched : list string)
    (df : table float) (fetched' : list string) :
  load_data sheet_name fetched = (inr df, fetched') ->
  exists url, lookup sheet_name CSV_URLS = Some url /\ fetched' = fetched ++ [url].
Proof.
  unfold LocationTracker.load_data.
  destruct (lookup sheet_name CSV_URLS) as [url|]; [|discriminate].
  intros [= _ <-]. now exists url.
Qed.

Lemma load_data_at_most_one (sheet_name : string) (fetched : list string) :
  List.length (snd (load_data sheet_name fetched)) <= S (List.length fetched).
Proof.
  pose proof (load_data_fetches sheet_name fetched) as H.
  destruct (lookup sheet_name CSV_URLS).
  - rewrite H, length_app. simpl. lia.
  - rewrite H. simpl. lia.
Qed.

(** C10, as the code has it. A run calls [load_data] three times: for the
    2nd floor, for the 3rd floor, and once more for the selected floor.
    It fetches at most three times, and a run that renders the page
    fetched exactly these three URLs, in this order. *)
Theorem script_fetches_at_most_three (floor_choice : string)
    (tag_choice : option string) (limit_choice : limit) :
  List.length (snd (script floor_choice tag_choice limit_choice)) <= 3
  /\ forall v, fst (script floor_choice tag_choice limit_choice) = Rendered v ->
       exists url2 url3 url,
         lookup "2nd" CSV_URLS = Some url2 /\ lookup "3rd" CSV_URLS = Some url3
         /\ lookup floor_choice CSV_URLS = Some url
         /\ snd (script floor_choice tag_choice limit_choice) = [url2; url3; url].
Proof.
  unfold LocationTracker.script, LocationTracker.pipeline, bind, lift, ret.
  destruct (load_data "2nd" []) as [[e|df_2nd] f1] eqn:E1.
  { pose proof (load_data_at_most_one "2nd" []) as H. rewrite E1 in H.
    simpl in *. split; [lia | discriminate]. }
  apply load_data_returns in E1 as [url2 [L2 ->]].
  destruct (load_data "3rd" ([] ++ [url2])) as [[e|df_3rd] f2] eqn:E2.
  { pose proof (load_data_at_most_one "3rd" ([] ++ [url2])) as H.
    rewrite E2 in H. simpl in *. split; [lia | discriminate]. }
  apply load_data_returns in E2 as [url3 [L3 ->]].
  destruct (latest sort_values _) as [e|latest_record].
  { simpl. split; [lia | discriminate]. }
  destruct (getitem "Tag" _) as [e|_];
    [simpl; split; [lia | discriminate]|].
  destruct (load_data floor_choice (([] ++ [url2]) ++ [url3]))
    as [[e|df] f3] eqn:E3.
  { pose proof (load_data_at_most_one floor_choice (([] ++ [url2]) ++ [url3])) as H.
    rewrite E3 in H. simpl in *. split; [lia | discriminate]. }
  apply load_data_returns in E3 as [url [L ->]].
  destruct (getitem "Tag" df) as [e|_];
    [simpl; split; [lia | discriminate]|].
  destruct (tag_options (rows df)) as [e|options];
    [simpl; split; [lia | discriminate]|].
  destruct (history_filter sort_values (rows df) tag_choice limit_choice)
    as [e|df_filtered];
    [simpl; split; [lia | discriminate]|].
  simpl. split; [lia|]. intros v _. now exists url2, url3, url.
Qed.

End RunFacts.

(** ** How the steps of a run compose *)
Section RunComposition.

Variable float : Type.
Variable parse_numeric : string -> option float.
Variable parse_datetime : list (cell datetime) -> string -> option datetime.
Variable sort_values : DataFrame float -> DataFrame float.
Variable read_csv : list string -> string -> exception + table float.
Variable sorted : list (option string) -> exception + list (option string).

Hypothesis sort_values_perm : forall df, Permutation (sort_values df) df.

Local Abbreviation sanitize := (sanitize parse_numeric parse_datetime).
Local Abbreviation ensure_proper_types :=
  (ensure_proper_types parse_numeric parse_datetime).
Local Abbreviation load_data := (load_data parse_numeric parse_datetime read_csv).
Local Abbreviation pipeline :=
  (pipeline parse_numeric parse_datetime sort_values read_csv sorted).
Local Abbreviation script :=
  (script parse_numeric parse_datetime sort_values read_csv sorted).

Lemma load_data_known (sheet_name url : string) (fetched : list string) :
  lookup sheet_name CSV_URLS = Some url ->
  load_data sheet_name fetched
  = (match read_csv fetched url with
     | inl e => inl e
     | inr df => ensure_proper_types sheet_name df
     end, fetched ++ [url]).
Proof. unfold LocationTracker.load_data. now intros ->. Qed.

Lemma load_data_inr (sheet_name : string) (fetched : list string)
    (df : table float) (fetched' : list string) :
  load_data sheet_name fetched = (inr df, fetched') ->
  exists url raw, lookup sheet_name CSV_URLS = Some url
                  /\ read_csv fetched url = inr raw
                  /\ ensure_proper_types sheet_name raw = inr df
                  /\ fetched' = fetched ++ [url].
Proof.
  unfold LocationTracker.load_data.
  destruct (lookup sheet_name CSV_URLS) as [url|]; [|discriminate].
  destruct (read_csv fetched url) as [e|raw] eqn:E; [discriminate|].
  intros [= H <-]. now exists url, raw.
Qed.

(** A table the type fixing of lines 18-24 returns comes of a table that
    has the columns Timestamp, X and Y, and its rows are what the
    sanitizer made of the rows of that table. *)
Lemma ensure_proper_types_inr (sheet_name : string) (raw df : table float) :
  ensure_proper_types sheet_name raw = inr df ->
  has_column "Timestamp" raw = true /\ has_column "X" raw = true
  /\ has_column "Y" raw = true
  /\ sanitize sheet_name (records raw) = inr (rows df)
  /\ columns df = if has_column "Floor" raw then columns raw
                  else columns raw ++ ["Floor"%string].
Proof.
  unfold LocationTracker.ensure_proper_types, and_then.
  destruct (has_column "Timestamp" raw); [|discriminate].
  destruct (has_column "X" raw); [|discriminate].
  destruct (has_column "Y" raw); [|discriminate]. simpl.
  destruct (sanitize sheet_name (records raw)) as [e|out]; [discriminate|].
  intros [= <-]. simpl. auto.
Qed.

Lemma known_sheets (sheet_name url : string) :
  lookup sheet_name CSV_URLS = Some url ->
  sheet_name = "2nd"%string \/ sheet_name = "3rd"%string.
Proof.
  unfold CSV_URLS, lookup.
  destruct (String.eqb_spec sheet_name "2nd"); [now left|].
  destruct (String.eqb_spec sheet_name "3rd"); [now right | discriminate].
Qed.

(** [load_data] for a sheet other than the two of [CSV_URLS] raises
    KeyError without fetching.  For one of the two it fetches the URL of
    the sheet once, whatever comes of it, and hands on the error of the
    source if there is one; on a response without Timestamp column it
    raises the KeyError of [dropna].  A table it returns is what the
    sanitizer made of a response that has the columns Timestamp, X and Y:
    no longer than the response, every row sanitized and stamped with the
    sheet. *)
Theorem load_data_outcome (sheet_name : string) (fetched : list string) :
  (lookup sheet_name CSV_URLS = None ->
   sheet_name <> "2nd"%string /\ sheet_name <> "3rd"%string
   /\ load_data sheet_name fetched = (inl (KeyError sheet_name), fetched))
  /\ (forall url, lookup sheet_name CSV_URLS = Some url ->
      (sheet_name = "2nd"%string \/ sheet_name = "3rd"%string)
      /\ snd (load_data sheet_name fetched) = fetched ++ [url]
      /\ (forall e, read_csv fetched url = inl e ->
                    fst (load_data sheet_name fetched) = inl e)
      /\ (forall raw, read_csv fetched url = inr raw ->
                      has_column "Timestamp" raw = false ->
                      fst (load_data sheet_name fetched)
                      = inl (KeyError "['Timestamp']"))
      /\ (forall df, fst (load_data sheet_name fetched) = inr df ->
            Forall (sanitized sheet_name) (rows df)
            /\ has_column "Floor" df = true
            /\ exists raw, read_csv fetched url = inr raw
                 /\ has_column "Timestamp" raw = true
                 /\ has_column "X" raw = true /\ has_column "Y" raw = true
                 /\ sanitize sheet_name (records raw) = inr (rows df)
                 /\ List.length (rows df) <= List.length (rows raw))).
Proof.
  split.
  - intro L. unfold LocationTracker.load_data. rewrite L.
    unfold CSV_URLS, lookup in L.
    destruct (String.eqb_spec sheet_name "2nd"); [discriminate|].
    destruct (String.eqb_spec sheet_name "3rd"); [discriminate|].
    auto.
  - intros url L. split; [now apply known_sheets in L|].
    rewrite (@load_data_known _ _ fetched L). simpl.
    split; [reflexivity|]. split; [|split].
    + now intros e ->.
    + intros raw -> H. unfold LocationTracker.ensure_proper_types.
      now rewrite H.
    + intros df H. destruct (read_csv fetched url) as [e|raw]; [discriminate|].
      apply ensure_proper_types_inr in H as [HT [HX [HY [HS HC]]]].
      split; [eapply sanitize_sanitized; eassumption|]. split.
      * unfold has_column. rewrite HC. unfold has_column.
        destruct (existsb (String.eqb "Floor") (columns raw)) eqn:E;
          [assumption|].
        rewrite existsb_app. simpl. apply orb_true_r.
      * exists raw. repeat (split; [assumption || reflexivity|]).
        assert (Hl : List.length (records raw) = List.length (rows raw)).
        { unfold records. destruct (has_column "Tag" raw);
            [reflexivity | apply length_map]. }
        rewrite <- Hl. eapply sanitize_shorter; eassumption.
Qed.

(** What stands behind a run that returns. *)
Lemma pipeline_returns (floor_choice : string) (tag_choice : option string)
    (limit_choice : limit) (v : view float) (fetched : list string) :
  pipeline floor_choice tag_choice limit_choice [] = (inr v, fetched) ->
  exists url2 url3 url raw2 raw3 raw df_2nd df_3rd df df_filtered,
    lookup "2nd" CSV_URLS = Some url2 /\ lookup "3rd" CSV_URLS = Some url3
    /\ lookup floor_choice CSV_URLS = Some url
    /\ read_csv [] url2 = inr raw2
    /\ read_csv [url2] url3 = inr raw3
    /\ read_csv [url2; url3] url = inr raw
    /\ sanitize "2nd" (records raw2) = inr df_2nd
    /\ sanitize "3rd" (records raw3) = inr df_3rd
    /\ sanitize floor_choice (records raw) = inr df
    /\ latest sort_values (df_2nd ++ df_3rd) = inr (latest_record v)
    /\ history_filter sort_values df tag_choice limit_choice = inr df_filtered
    /\ history v = fade sort_values df_filtered.
Proof.
  unfold LocationTracker.pipeline, bind, lift, ret.
  destruct (load_data "2nd" []) as [[e|df_2nd] f1] eqn:E1; [discriminate|].
  apply load_data_inr in E1 as [url2 [raw2 [L2 [R2 [S2 ->]]]]].
  destruct (load_data "3rd" ([] ++ [url2])) as [[e|df_3rd] f2] eqn:E2;
    [discriminate|].
  apply load_data_inr in E2 as [url3 [raw3 [L3 [R3 [S3 ->]]]]].
  destruct (latest sort_values _) as [e|latest_record] eqn:EL; [discriminate|].
  destruct (getitem "Tag" _) as [e|_]; [discriminate|].
  destruct (load_data floor_choice _) as [[e|df] f3] eqn:E3; [discriminate|].
  apply load_data_inr in E3 as [url [raw [L [R [S ->]]]]].
  destruct (getitem "Tag" df) as [e|_]; [discriminate|].
  destruct (tag_options _ _) as [e|options]; [discriminate|].
  destruct (history_filter sort_values _ tag_choice limit_choice)
    as [e|df_filtered] eqn:EH; [discriminate|].
  intros [= <- _].
  apply ensure_proper_types_inr in S2 as [_ [_ [_ [S2 _]]]].
  apply ensure_proper_types_inr in S3 as [_ [_ [_ [S3 _]]]].
  apply ensure_proper_types_inr in S as [_ [_ [_ [S _]]]].
  exists url2, url3, url, raw2, raw3, raw, (rows df_2nd), (rows df_3rd),
    (rows df), df_filtered.
  simpl. repeat split; assumption.
Qed.

Lemma script_rendered (floor_choice : string) (tag_choice : option string)
    (limit_choice : limit) (v : view float) :
  fst (script floor_choice tag_choice limit_choice) = Rendered v ->
  exists fetched,
    pipeline floor_choice tag_choice limit_choice [] = (inr v, fetched).
Proof.
  unfold LocationTracker.script.
  destruct (pipeline _ _ _ []) as [[e|v'] fetched]; simpl;
    [discriminate|].
  intros [= ->]. now exists fetched.
Qed.

(** A rendered page shows the latest record of the first two responses
    and the history of a third response: the selected floor is fetched
    again, and the history is made of that third response alone. *)
Theorem script_rendered_view (floor_choice : string) (tag_choice : option string)
    (limit_choice : limit) (v : view float) :
  fst (script floor_choice tag_choice limit_choice) = Rendered v ->
  exists url2 url3 url raw2 raw3 raw df_2nd df_3rd df df_filtered,
    lookup "2nd" CSV_URLS = Some url2 /\ lookup "3rd" CSV_URLS = Some url3
    /\ lookup floor_choice CSV_URLS = Some url
    /\ read_csv [] url2 = inr raw2
    /\ read_csv [url2] url3 = inr raw3
    /\ read_csv [url2; url3] url = inr raw
    /\ sanitize "2nd" (records raw2) = inr df_2nd
    /\ sanitize "3rd" (records raw3) = inr df_3rd
    /\ sanitize floor_choice (records raw) = inr df
    /\ latest sort_values (df_2nd ++ df_3rd) = inr (latest_record v)
    /\ history_filter sort_values df tag_choice limit_choice = inr df_filtered
    /\ history v = fade sort_values df_filtered.
Proof.
  intro H. apply script_rendered in H as [fetched H].
  now apply pipeline_returns in H.
Qed.

(** A failure while the two floors are loaded is shown as it is, and
    nothing more is fetched: the floor viewer is not reached.  This holds
    of an error of the source on either floor, and of the error lines
    18-24 raise on the response of the 2nd floor. *)
Theorem script_remote_failure (floor_choice : string)
    (tag_choice : option string) (limit_choice : limit) :
  exists url2 url3,
    lookup "2nd" CSV_URLS = Some url2 /\ lookup "3rd" CSV_URLS = Some url3
    /\ (forall e, read_csv [] url2 = inl e ->
          script floor_choice tag_choice limit_choice = (ErrorShown float e, [url2]))
    /\ (forall raw2 e, read_csv [] url2 = inr raw2 ->
          ensure_proper_types "2nd" raw2 = inl e ->
          script floor_choice tag_choice limit_choice = (ErrorShown float e, [url2]))
    /\ (forall raw2 df_2nd e, read_csv [] url2 = inr raw2 ->
          ensure_proper_types "2nd" raw2 = inr df_2nd ->
          read_csv [url2] url3 = inl e ->
          script floor_choice tag_choice limit_choice
          = (ErrorShown float e, [url2; url3])).
Proof.
  destruct (lookup "2nd" CSV_URLS) as [url2|] eqn:L2; [|discriminate].
  destruct (lookup "3rd" CSV_URLS) as [url3|] eqn:L3; [|discriminate].
  exists url2, url3. split; [reflexivity|]. split; [reflexivity|].
  unfold LocationTracker.script, LocationTracker.pipeline, bind.
  split; [|split].
  - intros e H. rewrite (@load_data_known _ _ _ L2), H. reflexivity.
  - intros raw2 e H2 S2. rewrite (@load_data_known _ _ _ L2), H2, S2.
    reflexivity.
  - intros raw2 df_2nd e H2 S2 H3.
    rewrite (@load_data_known _ _ _ L2), H2, S2, (@load_data_known _ _ _ L3).
    simpl. rewrite H3. reflexivity.
Qed.

(** When neither floor has a valid row the run ends in the selector's
    IndexError after two fetches; the selected floor is not fetched. *)
Theorem script_empty_floors (floor_choice : string)
    (tag_choice : option string) (limit_choice : limit) :
  exists url2 url3,
    lookup "2nd" CSV_URLS = Some url2 /\ lookup "3rd" CSV_URLS = Some url3
    /\ forall raw2 raw3 df_2nd df_3rd,
         read_csv [] url2 = inr raw2 -> read_csv [url2] url3 = inr raw3 ->
         ensure_proper_types "2nd" raw2 = inr df_2nd ->
         ensure_proper_types "3rd" raw3 = inr df_3rd ->
         rows df_2nd = [] -> rows df_3rd = [] ->
         script floor_choice tag_choice limit_choice
         = (ErrorShown float
              (IndexError "single positional indexer is out-of-bounds"),
            [url2; url3]).
Proof.
  destruct (lookup "2nd" CSV_URLS) as [url2|] eqn:L2; [|discriminate].
  destruct (lookup "3rd" CSV_URLS) as [url3|] eqn:L3; [|discriminate].
  exists url2, url3. split; [reflexivity|]. split; [reflexivity|].
  intros raw2 raw3 df_2nd df_3rd H2 H3 S2 S3 E2 E3.
  unfold LocationTracker.script, LocationTracker.pipeline, bind, lift.
  rewrite (@load_data_known _ _ _ L2), H2, S2, (@load_data_known _ _ _ L3).
  simpl. rewrite H3, S3. simpl. rewrite E2, E3. simpl.
  rewrite (@latest_nil _ sort_values sort_values_perm). reflexivity.
Qed.

(** On a rendered page the latest record is a sanitized record of the 2nd
    or of the 3rd floor, so both background lookups find an image: the
    guards [if bg_file] never skip the image. *)
Theorem script_backgrounds_found (floor_choice : string)
    (tag_choice : option string) (limit_choice : limit) (v : view float) :
  fst (script floor_choice tag_choice limit_choice) = Rendered v ->
  (sanitized "2nd" (latest_record v) \/ sanitized "3rd" (latest_record v))
  /\ (exists path, bg_file (Floor (latest_record v)) = Some path)
  /\ (exists path, bg_file (Some floor_choice) = Some path).
Proof.
  intro H. apply script_rendered in H as [fetched H].
  apply pipeline_returns in H
    as [url2 [url3 [url [raw2 [raw3 [raw [df_2nd [df_3rd [df [df_filtered H]]]]]]]]]].
  destruct H as [_ [_ [L [_ [_ [_ [S2 [S3 [_ [HL _]]]]]]]]]].
  assert (Hs : sanitized "2nd" (latest_record v)
               \/ sanitized "3rd" (latest_record v)).
  { eapply latest_in in HL; [|exact sort_values_perm].
    apply in_app_or in HL as [Hin|Hin].
    - left. assert (Hall : Forall (sanitized "2nd") df_2nd)
        by (eapply sanitize_sanitized; eassumption).
      rewrite Forall_forall in Hall. now apply Hall.
    - right. assert (Hall : Forall (sanitized "3rd") df_3rd)
        by (eapply sanitize_sanitized; eassumption).
      rewrite Forall_forall in Hall. now apply Hall. }
  split; [assumption|]. split.
  - destruct Hs as [[_ [_ [_ Hf]]]|[_ [_ [_ Hf]]]]; rewrite Hf; simpl; eauto.
  - apply known_sheets in L as [->| ->]; simpl; eauto.
Qed.

(** Every point of the floor chart on a rendered page is a sanitized
    record of the selected floor, has a selected tag, and has its order
    and an alpha in (0, 1]. *)
Theorem script_history_records (floor_choice : string)
    (tag_choice : option string) (limit_choice : limit) (v : view float) :
  fst (script floor_choice tag_choice limit_choice) = Rendered v ->
  forall q, In q (history v) ->
    sanitized floor_choice (rec q)
    /\ exists t i a, Tag (rec q) = Some t /\ selected tag_choice t = true
         /\ order q = Some i /\ alpha q = Some a /\ (0 < a)%Q /\ (a <= 1)%Q.
Proof.
  intros H q Hq. apply script_rendered in H as [fetched H].
  apply pipeline_returns in H
    as [url2 [url3 [url [raw2 [raw3 [raw [df_2nd [df_3rd [df [df_filtered H]]]]]]]]]].
  destruct H as [_ [_ [_ [_ [_ [_ [_ [_ [S [_ [HF Hh]]]]]]]]]]].
  rewrite Hh in Hq.
  destruct (@fade_history_in _ sort_values sort_values_perm _ _ _ _ q HF Hq)
    as [Hin Hrest].
  split; [|assumption].
  assert (Hall : Forall (sanitized floor_choice) df)
    by (eapply sanitize_sanitized; eassumption).
  rewrite Forall_forall in Hall. now apply Hall.
Qed.

End RunComposition.

(** ** The model on concrete rows *)

(** The scenario of the specification: of the two raw rows the one with
    X = "bad" is dropped. *)
Example sanitize_scenario :
  Sample.sanitize "2nd" Sample.scenario
  = inr [ mkRow (Some "T1"%string) (Val 5%Z) (Val 10%Z)
                (Val (naive 1704103200000000000)) (Some "2nd"%string) ].
Proof. vm_compute. reflexivity. Qed.

(** Two UTC offsets in one sheet: [to_datetime] raises in spite of
    [errors="coerce"], and so does the sanitizer. *)
Example sanitize_two_offsets :
  Sample.sanitize "2nd" Sample.two_offsets
  = inl (ValueError "Mixed timezones detected. Pass utc=True in to_datetime or tz='UTC' in DatetimeIndex to convert to a common timezone.").
Proof. vm_compute. reflexivity. Qed.

(** The selector example of the specification: the record of the later
    day is returned. *)
Example latest_two_floors :
  latest Sample.stable_sort Sample.two_floors
  = inr (mkRow (Some "B"%string) (Val 3%Z) (Val 4%Z)
               (Val (naive 1609545600000000000)) (Some "3rd"%string)).
Proof. vm_compute. reflexivity. Qed.

(** Both sheets empty: the run fetches the two floors, the selector
    raises, and the page shows the error. *)
Example script_header_only :
  Sample.script Sample.header_only Sample.sorted
                "2nd" (Some "All"%string) AllPositions
  = (ErrorShown Z (IndexError "single positional indexer is out-of-bounds"),
     [ "https://docs.google.com/spreadsheets/d/e/2PACX-1vTAu3Nv_Z7LvgPJ_YtIM14b5xrro004iNc_xjs6_Fgxn2NE_KTktnkyADzeGSgD99RYO6RKOZsYOpsN/pub?gid=1505254047&single=true&output=csv"%string;
       "https://docs.google.com/spreadsheets/d/e/2PACX-1vTAu3Nv_Z7LvgPJ_YtIM14b5xrro004iNc_xjs6_Fgxn2NE_KTktnkyADzeGSgD99RYO6RKOZsYOpsN/pub?gid=2010753039&single=true&output=csv"%string ]).
Proof. vm_compute. reflexivity. Qed.

(** The selected floor has no valid row while the other floor has one:
    the selector succeeds, and the run ends in the error of [pd.concat]. *)
Example script_empty_floor :
  fst (Sample.script Sample.second_floor_empty Sample.sorted
                     "2nd" (Some "All"%string) (Last 50))
  = ErrorShown Z (ValueError "No objects to concatenate").
Proof. vm_compute. reflexivity. Qed.

(** An unreachable source: the error is shown after the first fetch. *)
Example script_unreachable :
  fst (Sample.script Sample.unreachable Sample.sorted
                     "2nd" (Some "All"%string) AllPositions)
  = ErrorShown Z (RemoteError "HTTP Error 404: Not Found")
  /\ List.length
       (snd (Sample.script Sample.unreachable Sample.sorted
                           "2nd" (Some "All"%string) AllPositions))
     = 1.
Proof. split; vm_compute; reflexivity. Qed.

(** A sheet without Timestamp column: the [dropna] of line 18 raises, and
    the page shows its KeyError after the first fetch. *)
Example script_no_timestamps :
  fst (Sample.script Sample.no_timestamps Sample.sorted
                     "2nd" (Some "All"%string) AllPositions)
  = ErrorShown Z (KeyError "['Timestamp']")
  /\ List.length
       (snd (Sample.script Sample.no_timestamps Sample.sorted
                           "2nd" (Some "All"%string) AllPositions))
     = 1.
Proof. split; vm_compute; reflexivity. Qed.

(** *** Row sanitizer *)

(** C1 at the scenario of the specification. *)
Lemma sanitize_stable_filter_witness :
  one_dtype (parsed_Timestamps Sample.parse_datetime Sample.scenario) = true
  /\ Sample.sanitize "2nd" Sample.scenario
     = inr (map (stamped Sample.parse_numeric Sample.parse_datetime
                         "2nd" Sample.scenario)
                (filter (fully_valid Sample.parse_numeric Sample.parse_datetime
                                     Sample.scenario)
                        Sample.scenario)).
Proof.
  split; [vm_compute; reflexivity|].
  destruct (@sanitize_stable_filter Z Sample.parse_numeric Sample.parse_datetime
              "2nd" Sample.scenario) as [H _].
  apply H. vm_compute. reflexivity.
Defined.

(** C1 fails as stated: the X, the Y and the Timestamp of both rows are
    present and parse, the second Timestamp being written month first, and
    the sanitizer keeps the first row only: the format of the column is
    the one of its first Timestamp. *)
Lemma sanitize_drops_other_format :
  forallb (valid_alone Sample.parse_numeric Sample.parse_datetime)
          Sample.two_formats = true
  /\ List.length Sample.two_formats = 2
  /\ Sample.sanitize "2nd" Sample.two_formats
     = inr [ mkRow (Some "T1"%string) (Val 5%Z) (Val 10%Z)
                   (Val (naive 1704103200000000000)) (Some "2nd"%string) ].
Proof. repeat split; vm_compute; reflexivity. Qed.

(** C8 at the scenario of the specification. *)
Lemma sanitize_idempotent_witness :
  Sample.sanitize "2nd" Sample.scenario
  = inr [ mkRow (Some "T1"%string) (Val 5%Z) (Val 10%Z)
                (Val (naive 1704103200000000000)) (Some "2nd"%string) ]
  /\ Sample.sanitize "2nd"
       [ mkRow (Some "T1"%string) (Val 5%Z) (Val 10%Z)
               (Val (naive 1704103200000000000)) (Some "2nd"%string) ]
     = inr [ mkRow (Some "T1"%string) (Val 5%Z) (Val 10%Z)
                   (Val (naive 1704103200000000000)) (Some "2nd"%string) ].
Proof.
  split; [vm_compute; reflexivity|].
  apply (@sanitize_idempotent Z Sample.parse_numeric Sample.parse_datetime
           "2nd" Sample.scenario).
  vm_compute. reflexivity.
Defined.

(** C9 at the scenario of the specification. *)
Lemma sanitize_passes_tags_witness :
  exists out,
    Sample.sanitize "2nd" Sample.scenario = inr out
    /\ map (@Tag Z) out = [Some "T1"%string].
Proof.
  eexists. split; [vm_compute; reflexivity|].
  apply (@sanitize_passes_tags Z Sample.parse_numeric Sample.parse_datetime
           "2nd" Sample.scenario).
  vm_compute. reflexivity.
Defined.

(** C9 fails as stated: a row with valid X, Y and Timestamp and an empty
    Tag field is returned, with no tag. *)
Lemma sanitize_emits_missing_tag :
  exists out r,
    Sample.sanitize "2nd" [Sample.untagged] = inr out
    /\ In r out /\ Tag r = None.
Proof.
  eexists. eexists. split; [vm_compute; reflexivity|].
  split; [left; reflexivity | reflexivity].
Qed.

Lemma sanitize_length_witness :
  exists out,
    Sample.sanitize "2nd" Sample.scenario = inr out
    /\ List.length out <= List.length Sample.scenario.
Proof.
  eexists. split; [vm_compute; reflexivity|].
  apply (@sanitize_length Z Sample.parse_numeric Sample.parse_datetime
           "2nd" Sample.scenario).
  vm_compute. reflexivity.
Defined.

Lemma sanitize_never_mixes_witness :
  exists out,
    Sample.sanitize "3rd" Sample.sheet_aware = inr out
    /\ mixes_naive_and_aware out = false.
Proof.
  eexists. split; [vm_compute; reflexivity|].
  eapply (@sanitize_never_mixes Z Sample.parse_numeric Sample.parse_datetime
            "3rd" Sample.sheet_aware).
  - vm_compute. reflexivity.
  - apply incl_refl.
Defined.

(** *** Latest-position selector *)



(** C3 at two empty floor frames. *)
Lemma latest_empty_fails_witness :
  @nil (row Z) ++ [] = []
  /\ latest Sample.stable_sort ([] ++ [])
     = inl (IndexError "single positional indexer is out-of-bounds").
Proof.
  split; [reflexivity|].
  apply (@latest_empty_fails Z Sample.stable_sort (@stable_sort_perm Z) [] []
           eq_refl).
Defined.

(** *** History filter *)

(** C5 at a frame of four tagged records. *)
Lemma history_filter_all_keeps_tagged_witness :
  Sample.sightings <> []
  /\ exists out,
       history_filter Sample.stable_sort Sample.sightings (Some "All"%string)
                      AllPositions = inr out
       /\ Permutation out (filter (@has_tag Z) Sample.sightings).
Proof.
  split; [discriminate|].
  destruct (@history_filter_all_keeps_tagged Z Sample.stable_sort
              (@stable_sort_perm Z) (@stable_sort_sorted Z) Sample.sightings)
    as [out [H1 [_ [H2 _]]]]; [discriminate|].
  exists out. split; assumption.
Defined.

(** C5 fails as stated: the one record of this sanitized frame has no tag,
    and the filter with tag "All" and limit "All" returns the empty frame. *)
Lemma history_filter_all_drops_untagged :
  exists df,
    Sample.sanitize "2nd" [Sample.untagged] = inr df
    /\ List.length df = 1
    /\ history_filter Sample.stable_sort df (Some "All"%string) AllPositions
       = inr [].
Proof.
  eexists. split; [vm_compute; reflexivity|].
  split; vm_compute; reflexivity.
Qed.

(** The two most recent of the three sightings of tag A. *)
Lemma history_filter_most_recent_witness :
  exists out older,
    history_filter Sample.stable_sort Sample.sightings (Some "All"%string) (Last 2)
    = inr out
    /\ Permutation (older ++ filter (in_group "A") out)
                   (filter (in_group "A") Sample.sightings)
    /\ List.length (filter (in_group "A") out)
       = Nat.min 2 (List.length (filter (in_group "A") Sample.sightings))
    /\ (forall a b, In a older -> In b (filter (in_group "A") out) ->
                    Timestamp_le a b)
    /\ (List.length (filter (in_group "A") Sample.sightings) <= 2 ->
        Permutation (filter (in_group "A") out)
                    (filter (in_group "A") Sample.sightings)).
Proof.
  apply (@history_filter_most_recent Z Sample.stable_sort
           (@stable_sort_perm Z) (@stable_sort_sorted Z) Sample.sightings
           (Some "All"%string) 2 "A").
  - left. discriminate.
  - reflexivity.
Defined.

Lemma history_filter_rows_witness :
  history_filter Sample.stable_sort Sample.later_first (Some "B"%string)
                 AllPositions = inr [Sample.record "B" 1]
  /\ forall r, In r [Sample.record "B" 1] ->
       In r Sample.later_first
       /\ exists t, Tag r = Some t /\ selected (Some "B"%string) t = true.
Proof.
  split; [vm_compute; reflexivity|].
  apply (@history_filter_rows Z Sample.stable_sort (@stable_sort_perm Z)
           Sample.later_first (Some "B"%string) AllPositions).
  vm_compute. reflexivity.
Defined.

Lemma history_filter_absent_tag_witness :
  history_filter Sample.stable_sort Sample.later_first (Some "Z"%string) (Last 50)
  = inr [].
Proof.
  apply (@history_filter_absent_tag Z Sample.stable_sort (@stable_sort_perm Z)).
  - reflexivity.
  - intros r [<-|[<-|[]]]; reflexivity.
Defined.

(** *** Fade ranker *)

(** C6 at the group of tag A, of size 3. *)
Lemma fade_alpha_per_group_witness :
  Permutation (map (@rec Z) (group "A" (fade Sample.stable_sort Sample.sightings)))
              (filter (in_group "A") Sample.sightings)
  /\ exists q a,
       In q (group "A" (fade Sample.stable_sort Sample.sightings))
       /\ alpha q = Some a /\ (a == 1)%Q
       /\ forall q', In q' (group "A" (fade Sample.stable_sort Sample.sightings)) ->
                     Timestamp_le (rec q') (rec q).
Proof.
  destruct (@fade_alpha_per_group Z Sample.stable_sort
              (@stable_sort_perm Z) (@stable_sort_sorted Z)
              Sample.sightings "A") as [_ [Hp [_ [_ [_ [H _]]]]]].
  split; [assumption|].
  destruct H as [q [a [H1 [H2 [H3 [H4 _]]]]]].
  - intro E. vm_compute in E. discriminate.
  - exists q, a. repeat split; assumption.
Defined.

(** C6 fails as stated: the two records of tag A in this filter output
    share the latest Timestamp of their group, and the first of them
    receives alpha 1/2, not the maximum of the group. *)
Lemma fade_tied_latest_below_one :
  history_filter Sample.stable_sort Sample.tied_group (Some "All"%string)
                 AllPositions = inr Sample.tied_group
  /\ exists q q' a a',
       group "A" (fade Sample.stable_sort Sample.tied_group) = [q; q']
       /\ Timestamp_le (rec q') (rec q) /\ Timestamp_le (rec q) (rec q')
       /\ alpha q = Some a /\ (a == 1 # 2)%Q
       /\ alpha q' = Some a' /\ (a' == 1)%Q.
Proof.
  split; [vm_compute; reflexivity|].
  do 4 eexists. split; [vm_compute; reflexivity|].
  repeat split; vm_compute; reflexivity.
Qed.

(** C7 at a frame of four records. *)
Lemma fade_sorts_then_attaches_witness :
  map (@rec Z) (fade Sample.stable_sort Sample.sightings)
  = Sample.stable_sort Sample.sightings
  /\ Permutation (map (@rec Z) (fade Sample.stable_sort Sample.sightings))
                 Sample.sightings.
Proof.
  destruct (@fade_sorts_then_attaches Z Sample.stable_sort
              (@stable_sort_perm Z) (@stable_sort_sorted Z) Sample.sightings)
    as [H1 [H2 _]].
  split; assumption.
Defined.

(** C7 fails as stated: the filter lists tag A before tag B, and the ranker
    returns the record of B, which is earlier, before the record of A. *)
Lemma fade_reorders :
  history_filter Sample.stable_sort Sample.later_first (Some "All"%string)
                 AllPositions = inr Sample.later_first
  /\ map (@rec Z) (fade Sample.stable_sort Sample.later_first)
     = [ Sample.record "B" 1; Sample.record "A" 2 ]
  /\ map (@rec Z) (fade Sample.stable_sort Sample.later_first)
     <> Sample.later_first.
Proof.
  split; [vm_compute; reflexivity|]. split; [vm_compute; reflexivity|].
  vm_compute. discriminate.
Qed.

Lemma fade_history_complete_witness :
  history_filter Sample.stable_sort Sample.later_first (Some "All"%string)
                 AllPositions = inr Sample.later_first
  /\ forall q, In q (fade Sample.stable_sort Sample.later_first) ->
       In (rec q) Sample.later_first
       /\ exists t i a, Tag (rec q) = Some t
            /\ selected (Some "All"%string) t = true
            /\ order q = Some i /\ alpha q = Some a
            /\ (0 < a)%Q /\ (a <= 1)%Q.
Proof.
  split; [vm_compute; reflexivity|].
  apply (@fade_history_complete Z Sample.stable_sort (@stable_sort_perm Z)
           Sample.later_first (Some "All"%string) AllPositions).
  vm_compute. reflexivity.
Defined.

Lemma fade_single_tag_witness :
  history_filter Sample.stable_sort Sample.sightings (Some "A"%string) (Last 2)
  = inr [Sample.record "A" 5; Sample.record "A" 7]
  /\ List.length (fade Sample.stable_sort [Sample.record "A" 5; Sample.record "A" 7])
     = 2.
Proof.
  split; [vm_compute; reflexivity|].
  apply (@fade_single_tag Z Sample.stable_sort (@stable_sort_perm Z)
           Sample.sightings "A" (Last 2)).
  - discriminate.
  - vm_compute. reflexivity.
Defined.

(** *** One run *)

(** C10 fails as stated: a run over a source that serves one valid row per
    sheet fetches three times. *)
Lemma script_fetches_three_times :
  2 < List.length (snd Sample.run_one_row_each).
Proof. vm_compute. lia. Qed.

Lemma script_rendered_view_witness :
  exists v, fst Sample.run_one_row_each = Rendered v
    /\ exists df_filtered, history v = fade Sample.stable_sort df_filtered.
Proof.
  eexists. split; [vm_compute; reflexivity|].
  destruct (@script_rendered_view Z Sample.parse_numeric Sample.parse_datetime
              Sample.stable_sort Sample.one_row_each Sample.sorted
              "2nd" (Some "All"%string) AllPositions _ eq_refl)
    as [url2 [url3 [url [raw2 [raw3 [raw [df_2nd [df_3rd [df [df_filtered H]]]]]]]]]].
  exists df_filtered. apply H.
Defined.

Lemma script_empty_floors_witness :
  exists url2 url3,
    Sample.script Sample.header_only Sample.sorted
                  "2nd" (Some "All"%string) AllPositions
    = (ErrorShown Z (IndexError "single positional indexer is out-of-bounds"),
       [url2; url3]).
Proof.
  destruct (@script_empty_floors Z Sample.parse_numeric Sample.parse_datetime
              Sample.stable_sort Sample.header_only Sample.sorted
              (@stable_sort_perm Z) "2nd" (Some "All"%string) AllPositions)
    as [url2 [url3 [_ [_ H]]]].
  exists url2, url3.
  apply (H (mkTable Sample.header []) (mkTable Sample.header [])
           (mkTable (Sample.header ++ ["Floor"%string]) [])
           (mkTable (Sample.header ++ ["Floor"%string]) []));
    reflexivity.
Defined.

Lemma script_backgrounds_found_witness :
  exists v, fst Sample.run_one_row_each = Rendered v
    /\ (exists path, bg_file (Floor (latest_record v)) = Some path)
    /\ (exists path, bg_file (Some "2nd"%string) = Some path).
Proof.
  eexists. split; [vm_compute; reflexivity|].
  apply (@script_backgrounds_found Z Sample.parse_numeric Sample.parse_datetime
           Sample.stable_sort Sample.one_row_each Sample.sorted
           (@stable_sort_perm Z) "2nd" (Some "All"%string) AllPositions _ eq_refl).
Defined.

Lemma script_history_records_witness :
  exists v, fst Sample.run_one_row_each = Rendered v
    /\ forall q, In q (history v) ->
         sanitized "2nd" (rec q)
         /\ exists t i a, Tag (rec q) = Some t
              /\ selected (Some "All"%string) t = true
              /\ order q = Some i /\ alpha q = Some a
              /\ (0 < a)%Q /\ (a <= 1)%Q.
Proof.
  eexists. split; [vm_compute; reflexivity|].
  apply (@script_history_records Z Sample.parse_numeric Sample.parse_datetime
           Sample.stable_sort Sample.one_row_each Sample.sorted
           (@stable_sort_perm Z) "2nd" (Some "All"%string) AllPositions _ eq_refl).
Defined.

(** *** The options of the tag select box *)

Lemma sample_sorted_perm (tags out : list (option string)) :
  Sample.sorted tags = inr out -> Permutation out tags.
Proof.
  unfold Sample.sorted.
  destruct (existsb isnan tags && (1 <? List.length tags)); [discriminate|].
  intros [= <-]. apply insertion_sort_perm.
Qed.

Lemma tag_options_each_tag_witness :
  tag_options Sample.sorted Sample.sightings
  = inr [Some "All"%string; Some "A"%string; Some "B"%string]
  /\ exists tags,
       [Some "All"%string; Some "A"%string; Some "B"%string]
       = Some "All"%string :: tags
       /\ NoDup tags
       /\ List.length tags
          = List.length (unique (map (@Tag Z) Sample.sightings))
       /\ (forall t, In t tags <-> exists r, In r Sample.sightings /\ Tag r = t).
Proof.
  split; [vm_compute; reflexivity|].
  destruct (@tag_options_each_tag Z Sample.sorted sample_sorted_perm
              Sample.sightings) as [_ H].
  apply H. vm_compute. reflexivity.
Defined.
